(** * voice-browser: action registry, model invocation layer, error taxonomy
      and the learned-pattern memory store

    A shallow embedding of
      - the classification predicates of the agents' [errors] module,
      - [BaseAgent] of [agents/base.ts]: vision gating, [invoke] and manual
        recovery,
      - [Action.call] and [buildDynamicActionSchema] of the action builder,
      - the boolean coercion of the planner's output schema, as
        [agents/__tests__/planner.test.ts] re-creates it, and
      - [memoryStore] of the storage package.

    JavaScript values are an inductive type, strings are sequences of code
    units below U+0100, numbers are the integers among the Number values
    (with the rounding to 53 significant bits written out where the code
    computes or prints one), objects are plain objects given by their own
    properties, and effects (handler calls, model calls, manual recovery)
    are recorded in an explicit event trace. Computations that can throw
    return a completion. The zod library is present as the fragment the
    sources use. *)

From Stdlib Require Import Ascii String ZArith Lia.
From Stdlib Require QArith_base.
From stdpp Require Import base option list numbers strings pretty gmap sorting.

Local Open Scope string_scope.
Local Open Scope list_scope.
#[local] Set Warnings "-register-all".

(** ** Strings as the code uses them *)

Module JsString.

(** [String.prototype.includes]: is [needle] a contiguous part of [hay]? *)
Fixpoint includes (hay needle : string) : bool :=
  match hay with
  | EmptyString => String.prefix needle hay
  | String _ rest => String.prefix needle hay || includes rest needle
  end.

(** One code unit of [String.prototype.toLowerCase], for U+0000..U+00FF:
    A..Z and the Latin-1 capitals U+00C0..U+00DE (without the
    multiplication sign U+00D7) move up by 32. *)
Definition lowerUnit (c : ascii) : ascii :=
  let n := nat_of_ascii c in
  if ((65 <=? n) && (n <=? 90))%nat then ascii_of_nat (n + 32)
  else if ((192 <=? n) && (n <=? 222) && negb (n =? 215))%nat
       then ascii_of_nat (n + 32)
       else c.

Fixpoint toLowerCase (s : string) : string :=
  match s with
  | EmptyString => EmptyString
  | String c rest => String (lowerUnit c) (toLowerCase rest)
  end.

(** A text no unit of which lower-cases to the letter c; such a text
    holds no wording that starts with that letter. *)
Definition unmarked (s : string) : Prop :=
  Forall (fun c => lowerUnit c <> "c"%char) (list_ascii_of_string s).

(** White space and line terminators of ECMAScript below U+0100:
    TAB, LF, VT, FF, CR, SP and NBSP. *)
Definition isWhiteSpace (c : ascii) : bool :=
  let n := nat_of_ascii c in
  (((9 <=? n) && (n <=? 13)) || (n =? 32) || (n =? 160))%nat.

Fixpoint trimStart (s : string) : string :=
  match s with
  | EmptyString => EmptyString
  | String c rest => if isWhiteSpace c then trimStart rest else s
  end.

Fixpoint trimEnd (s : string) : string :=
  match s with
  | EmptyString => EmptyString
  | String c rest =>
      match trimEnd rest with
      | EmptyString => if isWhiteSpace c then EmptyString else String c EmptyString
      | r => String c r
      end
  end.

(** [String.prototype.trim] *)
Definition trim (s : string) : string := trimEnd (trimStart s).

(** [Array.prototype.join] on an array of strings *)
Fixpoint join (sep : string) (parts : list string) : string :=
  match parts with
  | [] => EmptyString
  | [p] => p
  | p :: rest => p +:+ sep +:+ join sep rest
  end.

(** The double-quote character, U+0022. *)
Definition dquote : string := String (ascii_of_nat 34) EmptyString.

(** The line feed, U+000A. *)
Definition newline : string := String (ascii_of_nat 10) EmptyString.

End JsString.

Import JsString.

(** ** Numbers *)

Module JsNumber.

(** A number is the integer it is worth; beyond 2^53 only the integers
    with 53 significant bits are Number values. [toDouble n] is the
    Number value an exact integer result [n] is rounded to: [n] itself up
    to 2^53, beyond that the nearest integer with 53 significant bits, a
    tie going to the even one. *)
Definition toDouble (n : Z) : Z :=
  let m := Z.abs n in
  if (m <=? 2 ^ 53)%Z then n
  else
    let shift := (Z.log2 m - 52)%Z in
    let q := Z.shiftr m shift in
    let r := (m - Z.shiftl q shift)%Z in
    let half := Z.shiftl 1 (shift - 1) in
    let q' := if (half <? r)%Z || ((r =? half)%Z && Z.odd q) then (q + 1)%Z else q in
    (Z.sgn n * Z.shiftl q' shift)%Z.

(** [n++] on a property that holds a number: the new value. *)
Definition increment (n : Z) : Z := toDouble (toDouble n + 1).

(** The integer [s * 10^e'] with the fewest significant digits whose
    Number value is [x], tried from [e' = e] downwards; of two with the
    same number of digits the nearer one, then the even one. *)
Fixpoint shortest (x : Z) (e : nat) : Z :=
  let p := (10 ^ Z.of_nat e)%Z in
  let vLow := (x / p * p)%Z in
  let vHigh := (vLow + p)%Z in
  let okLow := (toDouble vLow =? x)%Z in
  let okHigh := (toDouble vHigh =? x)%Z in
  if okLow && okHigh then
    if (x - vLow <? vHigh - x)%Z then vLow
    else if (vHigh - x <? x - vLow)%Z then vHigh
    else if Z.even (x / p) then vLow else vHigh
  else if okLow then vLow
  else if okHigh then vHigh
  else match e with
       | O => x
       | S e' => shortest x e'
       end.

Fixpoint dropZeros (digitsReversed : list ascii) : list ascii :=
  match digitsReversed with
  | c :: rest => if Ascii.eqb c "0" then dropZeros rest else digitsReversed
  | [] => []
  end.

(** The digits of a decimal numeral without its trailing zeros. *)
Definition significand (digits : string) : string :=
  string_of_list_ascii (rev (dropZeros (rev (list_ascii_of_string digits)))).

(** [Number::toString] of a positive Number value: all digits up to 21 of
    them, the exponent form beyond, [Infinity] from 2^1024. *)
Definition positiveToString (x : Z) : string :=
  if (2 ^ 1024 <=? x)%Z then "Infinity"
  else
    let digits := pretty x in
    let v := shortest x (String.length digits - 1) in
    let text := pretty v in
    let n := String.length text in
    if (n <=? 21)%nat then text
    else match significand text with
         | String d EmptyString => String d ("e+" +:+ pretty (n - 1)%nat)
         | String d rest => String d ("." +:+ rest +:+ "e+" +:+ pretty (n - 1)%nat)
         | EmptyString => text
         end.

(** [String(n)] for a number *)
Definition toString (n : Z) : string :=
  let x := toDouble n in
  if (x =? 0)%Z then "0"
  else if (x <? 0)%Z then "-" +:+ positiveToString (- x)
  else positiveToString x.

End JsNumber.

(** ** JavaScript objects as ordered property lists *)

Module JsObject.

(** The value of a string of decimal digits. *)
Fixpoint digitsValue (acc : N) (s : string) : option N :=
  match s with
  | EmptyString => Some acc
  | String c rest =>
      let n := nat_of_ascii c in
      if ((48 <=? n) && (n <=? 57))%nat
      then digitsValue (acc * 10 + N.of_nat (n - 48))%N rest
      else None
  end.

(** Is the property key an array index, i.e. the canonical numeral of an
    integer below 2^32 - 1? Then its value. *)
Definition arrayIndex (k : string) : option N :=
  match k with
  | EmptyString => None
  | _ =>
      match digitsValue 0 k with
      | Some n => if String.eqb (pretty n) k && (n <? 2 ^ 32 - 1)%N then Some n else None
      | None => None
      end
  end.

(** Does a new key [k] come before the key [k'] when the properties are
    enumerated? Array indices come first, in ascending order; the other
    keys follow in the order they were created. *)
Definition enumeratedBefore (k k' : string) : bool :=
  match arrayIndex k, arrayIndex k' with
  | Some i, Some j => (i <? j)%N
  | Some _, None => true
  | None, _ => false
  end.

(** [obj[k]], for a key that is an own property *)
Fixpoint getProp {V : Type} (k : string) (fields : list (string * V)) : option V :=
  match fields with
  | [] => None
  | (k', v') :: rest => if String.eqb k' k then Some v' else getProp k rest
  end.

(** [obj[k] = v] for a key the object has: the key keeps its place. *)
Fixpoint replaceProp {V : Type} (k : string) (v : V) (fields : list (string * V))
  : list (string * V) :=
  match fields with
  | [] => []
  | (k', v') :: rest =>
      if String.eqb k' k then (k, v) :: rest
      else (k', v') :: replaceProp k v rest
  end.

(** [obj[k] = v] for a key the object does not have yet. *)
Fixpoint insertProp {V : Type} (k : string) (v : V) (fields : list (string * V))
  : list (string * V) :=
  match fields with
  | [] => [(k, v)]
  | (k', v') :: rest =>
      if enumeratedBefore k k' then (k, v) :: (k', v') :: rest
      else (k', v') :: insertProp k v rest
  end.

(** [obj[k] = v]; the list is in the order [Object.keys] enumerates. *)
Definition setProp {V : Type} (k : string) (v : V) (fields : list (string * V))
  : list (string * V) :=
  match getProp k fields with
  | Some _ => replaceProp k v fields
  | None => insertProp k v fields
  end.

(** [{...a, ...b}] *)
Definition spread {V : Type} (a b : list (string * V)) : list (string * V) :=
  fold_left (fun acc kv => setProp (fst kv) (snd kv) acc) b a.

(** [Object.keys(obj)] *)
Definition keys {V : Type} (fields : list (string * V)) : list string :=
  map fst fields.

End JsObject.

Import JsObject.

(** ** JavaScript values *)

(** An instance of [Error] (or of a subclass): the [name] and [message]
    properties and the numeric [status] property some SDKs add. *)
Record ErrorObj := mkError {
  err_name : string;
  err_message : string;
  err_status : option Z
}.

(** [new Error(message)] *)
Definition newError (message : string) : ErrorObj :=
  {| err_name := "Error"; err_message := message; err_status := None |}.

(** [new TypeError(message)] *)
Definition newTypeError (message : string) : ErrorObj :=
  {| err_name := "TypeError"; err_message := message; err_status := None |}.

(** The values: a [JObj] is a plain object with the listed own
    properties, none of them a function. *)
Inductive JsVal :=
| JUndefined
| JNull
| JBool (b : bool)
| JNum (n : Z)
| JStr (s : string)
| JArr (items : list JsVal)
| JObj (fields : list (string * JsVal))
| JError (e : ErrorObj).

(** How a JavaScript computation ends: with a value or with a thrown one. *)
Inductive Completion (A : Type) :=
| Normal (a : A)
| Throw (e : JsVal).
Arguments Normal {A} a.
Arguments Throw {A} e.

(** [v instanceof Error] *)
Definition instanceofError (v : JsVal) : bool :=
  match v with JError _ => true | _ => false end.

(** [Error.prototype.toString] *)
Definition errorToString (e : ErrorObj) : string :=
  if String.eqb (err_name e) EmptyString then err_message e
  else if String.eqb (err_message e) EmptyString then err_name e
  else err_name e +:+ ": " +:+ err_message e.

(** What the conversion of an object to a primitive throws when neither
    [toString] nor [valueOf] gives one. *)
Definition notPrimitive : JsVal :=
  JError (newTypeError "Cannot convert object to primitive value").

(** [String(v)]. An array joins the strings of its items. A plain object
    answers with [Object.prototype.toString] unless it has a [toString]
    property of its own: that one is no function, [valueOf] gives back
    the object, and the conversion throws a [TypeError]. *)
Fixpoint jsString (v : JsVal) : Completion string :=
  match v with
  | JUndefined => Normal "undefined"
  | JNull => Normal "null"
  | JBool true => Normal "true"
  | JBool false => Normal "false"
  | JNum n => Normal (JsNumber.toString n)
  | JStr s => Normal s
  | JArr items =>
      (fix joinItems (xs : list JsVal) : Completion string :=
         match xs with
         | [] => Normal EmptyString
         | x :: rest =>
             match (match x with
                    | JUndefined | JNull => Normal EmptyString
                    | _ => jsString x
                    end) with
             | Throw e => Throw e
             | Normal s =>
                 match rest with
                 | [] => Normal s
                 | _ => match joinItems rest with
                        | Normal r => Normal (s +:+ "," +:+ r)
                        | Throw e => Throw e
                        end
                 end
             end
         end) items
  | JObj fields =>
      match getProp "toString" fields with
      | Some _ => Throw notPrimitive
      | None => Normal "[object Object]"
      end
  | JError e => Normal (errorToString e)
  end.

(** Truthiness, as [if (v)] and [!!v] see it. *)
Definition truthy (v : JsVal) : bool :=
  match v with
  | JUndefined | JNull => false
  | JBool b => b
  | JNum n => negb (n =? 0)%Z
  | JStr s => negb (String.eqb s EmptyString)
  | JArr _ | JObj _ | JError _ => true
  end.

(** The own properties of a value that is an object, as far as they are
    modelled; [None] for primitives and arrays. *)
Definition propertiesOf (v : JsVal) : option (list (string * JsVal)) :=
  match v with
  | JObj fields => Some fields
  | JError e =>
      Some ([("name", JStr (err_name e)); ("message", JStr (err_message e))]
            ++ match err_status e with
               | Some s => [("status", JNum s)]
               | None => []
               end)
  | _ => None
  end.

(** ** errors.ts: the classification predicates *)

Module Errors.

(** ['status' in error && error.status === code] *)
Definition statusIs (e : ErrorObj) (code : Z) : bool :=
  match err_status e with
  | Some s => (s =? code)%Z
  | None => false
  end.

Definition isAuthenticationError (error : JsVal) : bool :=
  match error with
  | JError e =>
      let errorMessage := err_message e in
      if String.eqb (err_name e) "AuthenticationError" then true
      else if statusIs e 401 then true
      else includes (toLowerCase errorMessage) "authentication"
           || includes errorMessage " 401"
           || includes (toLowerCase errorMessage) "api key"
  | _ => false
  end.

Definition isForbiddenError (error : JsVal) : bool :=
  match error with
  | JError e =>
      if statusIs e 403 then true
      else includes (err_message e) " 403"
           || includes (toLowerCase (err_message e)) "forbidden"
  | _ => false
  end.

Definition isBadRequestError (error : JsVal) : bool :=
  match error with
  | JError e =>
      let errorMessage := err_message e in
      if String.eqb (err_name e) "BadRequestError" then true
      else if statusIs e 400 then true
      else includes errorMessage " 400"
           || includes (toLowerCase errorMessage) "badrequest"
           || includes errorMessage "Invalid parameter"
           || (includes errorMessage "response_format"
               && includes errorMessage "json_schema"
               && includes errorMessage "not supported")
  | _ => false
  end.

Definition isAbortedError (error : JsVal) : bool :=
  match error with
  | JError e =>
      String.eqb (err_name e) "AbortError" || includes (err_message e) "Aborted"
  | _ => false
  end.

(** [(error instanceof Error ? error.message : String(error))]; the
    conversion of a value that is no [Error] may throw. *)
Definition messageOrString (error : JsVal) : Completion string :=
  match error with
  | JError e => Normal (err_message e)
  | _ => jsString error
  end.

Definition isExtensionConflictError (error : JsVal) : Completion bool :=
  match messageOrString error with
  | Throw e => Throw e
  | Normal text =>
      let errorMessage := toLowerCase text in
      Normal (includes errorMessage "cannot access a chrome-extension"
              && includes errorMessage "of different extension")
  end.

(** [new ResponseParseError(message)] *)
Definition ResponseParseError (message : string) : ErrorObj :=
  {| err_name := "ResponseParseError"; err_message := message; err_status := None |}.

(** The kinds of the error taxonomy a failure is sorted into. *)
Inductive ErrorKind :=
| Authentication | Forbidden | BadRequest | Aborted | EnvironmentConflict
| Unclassified.

(** Modelled from the spec: the caller that chains the predicates is not
    part of the sources at hand; the specification fixes its priority
    order as aborted > auth > forbidden > bad-request > conflict >
    unclassified. What a predicate throws leaves the chain with it. *)
Definition classify (error : JsVal) : Completion ErrorKind :=
  if isAbortedError error then Normal Aborted
  else if isAuthenticationError error then Normal Authentication
  else if isForbiddenError error then Normal Forbidden
  else if isBadRequestError error then Normal BadRequest
  else match isExtensionConflictError error with
       | Normal true => Normal EnvironmentConflict
       | Normal false => Normal Unclassified
       | Throw e => Throw e
       end.

End Errors.

(** ** Chat messages (the part of LangChain's [BaseMessage] the agent reads) *)

(** One entry of an array-valued message content, e.g.
    [{type: 'text', text: ...}] or [{type: 'image_url', image_url: ...}]. *)
Record ContentItem := mkItem {
  item_type : string;
  item_text : option string;
  item_image_url : option string
}.

Inductive MessageContent :=
| ContentString (text : string)
| ContentArray (items : list ContentItem).

(** [msg_class] stands for [message.constructor] (HumanMessage, AIMessage,
    ...), [msg_fields] for the remaining enumerable fields copied by the
    spread [{...message}]. *)
Record BaseMessage := mkMessage {
  msg_class : string;
  msg_fields : list (string * JsVal);
  content : MessageContent
}.

(** What a run does besides returning: the collaborators it calls. *)
Inductive Event :=
| EvHandler (action : string) (input : JsVal)
| EvStructuredInvoke (messages : list BaseMessage)
| EvInvoke (messages : list BaseMessage)
| EvManualParse (rawContent : string).

(** Is the event a call of the language model? *)
Definition isModelCall (ev : Event) : bool :=
  match ev with
  | EvStructuredInvoke _ | EvInvoke _ => true
  | _ => false
  end.

(** Computations that append to the trace and may throw. *)
Definition Eff (A : Type) : Type := list Event -> Completion A * list Event.

Module EffMonad.

Definition ret {A} (a : A) : Eff A := fun tr => (Normal a, tr).

Definition throw {A} (e : JsVal) : Eff A := fun tr => (Throw e, tr).

Definition bind {A B} (m : Eff A) (k : A -> Eff B) : Eff B :=
  fun tr =>
    match m tr with
    | (Normal a, tr') => k a tr'
    | (Throw e, tr') => (Throw e, tr')
    end.

Definition emit (ev : Event) : Eff unit := fun tr => (Normal tt, tr ++ [ev]).

(** Lift the outcome of an external call into the computation. *)
Definition lift {A} (c : Completion A) : Eff A := fun tr => (c, tr).

(** [try { body } catch (error) { handler(error) }] *)
Definition tryCatch {A} (body : Eff A) (handler : JsVal -> Eff A) : Eff A :=
  fun tr =>
    match body tr with
    | (Normal a, tr') => (Normal a, tr')
    | (Throw e, tr') => handler e tr'
    end.

(** Run a computation from the empty trace. *)
Definition run {A} (m : Eff A) : Completion A * list Event := m [].

End EffMonad.

Import EffMonad.

Notation "'let*' x ':=' m 'in' k" := (bind m (fun x => k))
  (at level 10, x name, m at level 100, k at level 200).

(** ** The part of the zod library the sources rely on *)

Module Zod.

Inductive PathSeg :=
| PKey (key : string)
| PIndex (index : nat).

(** A [ZodIssue] of the two kinds the fragment raises, with the
    properties in the order zod creates them. The [unionErrors] are the
    issues of the [ZodError] of each option. *)
Inductive ZodIssue :=
| InvalidType (expected received : string) (path : list PathSeg) (message : string)
| InvalidUnion (unionErrors : list (list ZodIssue)) (path : list PathSeg)
               (message : string).

(** What a parse reads: a value, or one of the two things every plain
    object inherits and that are no values of the model, a method of
    [Object.prototype] and that prototype itself. *)
Inductive Datum :=
| DVal (v : JsVal)
| DMethod
| DObjectPrototype.

(** The result of [_parse]: a value, a list of issues, or an exception
    escaping from a [transform] callback (zod does not catch those). *)
Inductive ParseReturn :=
| PValid (value : JsVal)
| PInvalid (issues : list ZodIssue)
| PThrown (e : JsVal).

Inductive ZodType :=
| Zod (def : ZodDef) (description : option string)
with ZodDef :=
| ZodString
| ZodNumber
| ZodBoolean
| ZodArray (element : ZodType)
| ZodObject (shape : list (string * ZodType))
| ZodOptional (innerType : ZodType)
| ZodNullable (innerType : ZodType)
| ZodUnion (options : list ZodType)
| ZodEffects (schema : ZodType) (transform : JsVal -> Completion JsVal).

Definition defOf (t : ZodType) : ZodDef := match t with Zod d _ => d end.
Definition descriptionOf (t : ZodType) : option string :=
  match t with Zod _ d => d end.

(** Constructors, as the sources call them. *)
Definition string_ : ZodType := Zod ZodString None.
Definition number_ : ZodType := Zod ZodNumber None.
Definition boolean_ : ZodType := Zod ZodBoolean None.
Definition array_ (element : ZodType) : ZodType := Zod (ZodArray element) None.
Definition object (shape : list (string * ZodType)) : ZodType :=
  Zod (ZodObject shape) None.
Definition union (options : list ZodType) : ZodType := Zod (ZodUnion options) None.

(** [t.nullable()], [t.optional()]: the wrapper inherits the description. *)
Definition nullable (t : ZodType) : ZodType := Zod (ZodNullable t) (descriptionOf t).
Definition optional (t : ZodType) : ZodType := Zod (ZodOptional t) (descriptionOf t).

(** [t.describe(d)] *)
Definition describe (d : string) (t : ZodType) : ZodType := Zod (defOf t) (Some d).

(** [t.transform(f)] *)
Definition transform (f : JsVal -> Completion JsVal) (t : ZodType) : ZodType :=
  Zod (ZodEffects t f) None.

(** [obj.extend(augmentation)]: the shape is [{...shape, ...augmentation}]. *)
Definition extend (augmentation : list (string * ZodType)) (t : ZodType) : ZodType :=
  match t with
  | Zod (ZodObject shape) d => Zod (ZodObject (spread shape augmentation)) d
  | _ => t
  end.

(** [getParsedType] *)
Definition parsedType (v : JsVal) : string :=
  match v with
  | JUndefined => "undefined"
  | JNull => "null"
  | JBool _ => "boolean"
  | JNum _ => "number"
  | JStr _ => "string"
  | JArr _ => "array"
  | JObj _ | JError _ => "object"
  end.

Definition parsedTypeOf (input : Datum) : string :=
  match input with
  | DVal v => parsedType v
  | DMethod => "function"
  | DObjectPrototype => "object"
  end.

(** The methods of [Object.prototype]. *)
Definition objectPrototypeMethods : list string :=
  ["constructor"; "hasOwnProperty"; "isPrototypeOf"; "propertyIsEnumerable";
   "toLocaleString"; "toString"; "valueOf"; "__defineGetter__";
   "__defineSetter__"; "__lookupGetter__"; "__lookupSetter__"].

(** What an object finds under [key] on [Object.prototype]. *)
Definition inherited (key : string) : option Datum :=
  if decide (key ∈ objectPrototypeMethods) then Some DMethod
  else if String.eqb key "__proto__" then Some DObjectPrototype
  else None.

(** [data[key]] for a [data] that is an object, through the prototype
    chain; [None] when [key in data] is false. *)
Definition readProp (key : string) (data : Datum) : option Datum :=
  match data with
  | DVal v =>
      match propertiesOf v with
      | Some fields =>
          match getProp key fields with
          | Some x => Some (DVal x)
          | None => inherited key
          end
      | None => None
      end
  | DObjectPrototype =>
      if decide (key ∈ objectPrototypeMethods) then Some DMethod
      else if String.eqb key "__proto__" then Some (DVal JNull)
      else None
  | DMethod => None
  end.

Definition invalidType (expected : string) (path : list PathSeg) (input : Datum)
  : ParseReturn :=
  PInvalid [InvalidType expected (parsedTypeOf input) path
              (match input with
               | DVal JUndefined => "Required"
               | _ => "Expected " +:+ expected +:+ ", received " +:+ parsedTypeOf input
               end)].

(** The state of an object or array parse after some members. *)
Inductive Members (A : Type) :=
| MembersOk (acc : A)
| MembersBad (issues : list ZodIssue)
| MembersThrown (e : JsVal).
Arguments MembersOk {A} acc.
Arguments MembersBad {A} issues.
Arguments MembersThrown {A} e.

(** Put the result of one member in front of the results of the later
    ones; [add] extends the output on success. *)
Definition mergeMember {A} (add : JsVal -> A -> A) (r : ParseReturn) (later : Members A)
  : Members A :=
  match r, later with
  | PThrown e, _ => MembersThrown e
  | _, MembersThrown e => MembersThrown e
  | PValid v, MembersOk acc => MembersOk (add v acc)
  | PValid _, MembersBad issues => MembersBad issues
  | PInvalid issues, MembersOk _ => MembersBad issues
  | PInvalid issues, MembersBad more => MembersBad (issues ++ more)
  end.

(** The issues of an option of a union that did not accept the input. *)
Definition issuesOf (r : ParseReturn) : list ZodIssue :=
  match r with PInvalid issues => issues | _ => [] end.

(** [_parse], synchronous. *)
Fixpoint parseType (t : ZodType) (path : list PathSeg) (input : Datum) {struct t}
  : ParseReturn :=
  match t with
  | Zod d _ => parseDef d path input
  end
with parseDef (d : ZodDef) (path : list PathSeg) (input : Datum) {struct d}
  : ParseReturn :=
  match d with
  | ZodString =>
      match input with
      | DVal (JStr s) => PValid (JStr s)
      | _ => invalidType "string" path input
      end
  | ZodNumber =>
      match input with
      | DVal (JNum n) => PValid (JNum n)
      | _ => invalidType "number" path input
      end
  | ZodBoolean =>
      match input with
      | DVal (JBool b) => PValid (JBool b)
      | _ => invalidType "boolean" path input
      end
  | ZodArray element =>
      match input with
      | DVal (JArr items) =>
          let members :=
            (fix go (xs : list JsVal) (i : nat) : Members (list JsVal) :=
               match xs with
               | [] => MembersOk []
               | x :: rest =>
                   match parseType element (path ++ [PIndex i]) (DVal x) with
                   | PThrown e => MembersThrown e
                   | r => mergeMember cons r (go rest (S i))
                   end
               end) items 0%nat in
          match members with
          | MembersOk out => PValid (JArr out)
          | MembersBad issues => PInvalid issues
          | MembersThrown e => PThrown e
          end
      | _ => invalidType "array" path input
      end
  | ZodObject shape =>
      if String.eqb (parsedTypeOf input) "object" then
        let members :=
          (fix go (sh : list (string * ZodType)) : Members (list (string * JsVal)) :=
             match sh with
             | [] => MembersOk []
             | (key, validator) :: rest =>
                 let value := default (DVal JUndefined) (readProp key input) in
                 let alwaysSet := bool_decide (is_Some (readProp key input)) in
                 match parseType validator (path ++ [PKey key]) value with
                 | PThrown e => MembersThrown e
                 | r =>
                     mergeMember
                       (fun v acc =>
                          if String.eqb key "__proto__" then acc
                          else match v with
                               | JUndefined => if alwaysSet then (key, v) :: acc else acc
                               | _ => (key, v) :: acc
                               end)
                       r (go rest)
                 end
             end) shape in
        match members with
        | MembersOk out => PValid (JObj (spread [] out))
        | MembersBad issues => PInvalid issues
        | MembersThrown e => PThrown e
        end
      else invalidType "object" path input
  | ZodOptional innerType =>
      match input with
      | DVal JUndefined => PValid JUndefined
      | _ => parseType innerType path input
      end
  | ZodNullable innerType =>
      match input with
      | DVal JNull => PValid JNull
      | _ => parseType innerType path input
      end
  | ZodUnion options =>
      (fix go (opts : list ZodType) (unionErrors : list (list ZodIssue)) : ParseReturn :=
         match opts with
         | [] => PInvalid [InvalidUnion unionErrors path "Invalid input"]
         | option :: rest =>
             match parseType option path input with
             | PValid v => PValid v
             | PThrown e => PThrown e
             | PInvalid issues =>
                 go rest (match issues with
                          | [] => unionErrors
                          | _ => unionErrors ++ [issues]
                          end)
             end
         end) options []
  | ZodEffects schema f =>
      match parseType schema path input with
      | PValid v =>
          match f v with
          | Normal out => PValid out
          | Throw e => PThrown e
          end
      | r => r
      end
  end.

(** [t.safeParse(input)] returns [{success, data}] or [{success, error}];
    an exception thrown by a transform escapes it. *)
Definition safeParse (t : ZodType) (input : JsVal) : ParseReturn :=
  parseType t [] (DVal input).

(** [t.isOptional()] and [t.isNullable()], as zod defines them. *)
Definition isOptional (t : ZodType) : bool :=
  match safeParse t JUndefined with PValid _ => true | _ => false end.
Definition isNullable (t : ZodType) : bool :=
  match safeParse t JNull with PValid _ => true | _ => false end.

(** [t.parse(input)]: the value, or the exception it raises, a
    [ZodError] when the input was rejected with issues. *)
Inductive ParseOutcome :=
| Parsed (value : JsVal)
| RaisedZodError (issues : list ZodIssue)
| Raised (e : JsVal).

Definition parse (t : ZodType) (input : JsVal) : ParseOutcome :=
  match safeParse t input with
  | PValid v => Parsed v
  | PInvalid issues => RaisedZodError issues
  | PThrown e => Raised e
  end.

(** *** The message of a [ZodError] *)

(** The JSON texts the issues are made of. *)
Inductive Json :=
| JsonString (s : string)
| JsonNumber (n : nat)
| JsonArray (items : list Json)
| JsonObject (members : list (string * Json)).

Definition hexDigit (n : nat) : ascii :=
  nth n (list_ascii_of_string "0123456789abcdef") "0"%char.

Definition backslash : string := String (ascii_of_nat 92) EmptyString.

(** One code unit inside a JSON string. *)
Definition quoteUnit (c : ascii) : string :=
  let n := nat_of_ascii c in
  if (n =? 8)%nat then backslash +:+ "b"
  else if (n =? 9)%nat then backslash +:+ "t"
  else if (n =? 10)%nat then backslash +:+ "n"
  else if (n =? 12)%nat then backslash +:+ "f"
  else if (n =? 13)%nat then backslash +:+ "r"
  else if (n =? 34)%nat then backslash +:+ dquote
  else if (n =? 92)%nat then backslash +:+ backslash
  else if (n <? 32)%nat
       then backslash +:+ "u00"
            +:+ String (hexDigit (n / 16)) (String (hexDigit (n mod 16)) EmptyString)
       else String c EmptyString.

Fixpoint quoteUnits (s : string) : string :=
  match s with
  | EmptyString => EmptyString
  | String c rest => quoteUnit c +:+ quoteUnits rest
  end.

(** [JSON.stringify] of a string *)
Definition quote (s : string) : string := dquote +:+ quoteUnits s +:+ dquote.

(** [JSON.stringify(j, null, 2)], at the indentation [indent]. *)
Fixpoint stringify (indent : string) (j : Json) : string :=
  let stepback := indent in
  let indent := indent +:+ "  " in
  match j with
  | JsonString s => quote s
  | JsonNumber n => pretty n
  | JsonArray items =>
      match items with
      | [] => "[]"
      | _ =>
          "[" +:+ newline +:+ indent
          +:+ join ("," +:+ newline +:+ indent)
                ((fix each (xs : list Json) : list string :=
                    match xs with
                    | [] => []
                    | x :: rest => stringify indent x :: each rest
                    end) items)
          +:+ newline +:+ stepback +:+ "]"
      end
  | JsonObject members =>
      match members with
      | [] => "{}"
      | _ =>
          "{" +:+ newline +:+ indent
          +:+ join ("," +:+ newline +:+ indent)
                ((fix each (xs : list (string * Json)) : list string :=
                    match xs with
                    | [] => []
                    | (k, x) :: rest =>
                        (quote k +:+ ": " +:+ stringify indent x) :: each rest
                    end) members)
          +:+ newline +:+ stepback +:+ "}"
      end
  end.

Definition jsonOfPath (path : list PathSeg) : Json :=
  JsonArray (map (fun seg => match seg with
                             | PKey key => JsonString key
                             | PIndex i => JsonNumber i
                             end) path).

(** An issue as [JSON.stringify] sees it; a [ZodError] among the
    [unionErrors] shows its [issues] and its [name]. *)
Fixpoint jsonOfIssue (issue : ZodIssue) : Json :=
  match issue with
  | InvalidType expected received path message =>
      JsonObject [("code", JsonString "invalid_type");
                  ("expected", JsonString expected);
                  ("received", JsonString received);
                  ("path", jsonOfPath path);
                  ("message", JsonString message)]
  | InvalidUnion unionErrors path message =>
      JsonObject
        [("code", JsonString "invalid_union");
         ("unionErrors",
          JsonArray
            ((fix errors (es : list (list ZodIssue)) : list Json :=
                match es with
                | [] => []
                | issues :: rest =>
                    JsonObject
                      [("issues",
                        JsonArray ((fix each (xs : list ZodIssue) : list Json :=
                                      match xs with
                                      | [] => []
                                      | x :: more => jsonOfIssue x :: each more
                                      end) issues));
                       ("name", JsonString "ZodError")]
                    :: errors rest
                end) unionErrors));
         ("path", jsonOfPath path);
         ("message", JsonString message)]
  end.

(** [ZodError.prototype.message]: [JSON.stringify(this.issues, ..., 2)] *)
Definition errorMessage (issues : list ZodIssue) : string :=
  stringify EmptyString (JsonArray (map jsonOfIssue issues)).

End Zod.

Import Zod.

(** ** actions/builder.ts: capabilities and the decision schema *)

Module Builder.

(** [ActionResult], with its four fields. *)
Record ActionResult := mkResult {
  extractedContent : option string;
  error : option string;
  isDone : bool;
  includeInMemory : bool
}.

(** [ActionSchema]: the name, the description shown to the model and the
    zod schema of the parameters. *)
Record ActionSchema := mkActionSchema {
  as_name : string;
  as_description : string;
  as_schema : ZodType
}.

(** [new InvalidInputError(message)] *)
Definition InvalidInputError (message : string) : ErrorObj :=
  {| err_name := "InvalidInputError"; err_message := message; err_status := None |}.

(** The class [Action]. The handler is an asynchronous function of the
    environment; here it is the outcome it settles with per input. *)
Record Action := mkAction {
  handler : JsVal -> Completion ActionResult;
  schema : ActionSchema;
  hasIndex : bool;
  needsDelay : bool
}.

(** [action.name()] *)
Definition name (a : Action) : string := as_name (schema a).

(** [await this.handler(input)], recorded in the trace. *)
Definition invokeHandler (a : Action) (input : JsVal) : Eff ActionResult :=
  let* _ := emit (EvHandler (name a) input) in
  lift (handler a input).

(** [schema instanceof z.ZodObject && Object.keys(schema.shape || {}).length === 0] *)
Definition isEmptySchema (schema_ : ZodType) : bool :=
  match defOf schema_ with
  | ZodObject shape => (length (keys shape) =? 0)%nat
  | _ => false
  end.

Section Call.

(** [ZodError.prototype.message], the rendering of the issues by zod. *)
Variable zodErrorMessage : list ZodIssue -> string.

(** [Action.call] *)
Definition call (a : Action) (input : JsVal) : Eff ActionResult :=
  let schema_ := as_schema (schema a) in
  if isEmptySchema schema_ then invokeHandler a (JObj [])
  else
    match safeParse (as_schema (schema a)) input with
    | PInvalid issues =>
        let errorMessage := zodErrorMessage issues in
        throw (JError (InvalidInputError errorMessage))
    | PThrown e => throw e
    | PValid data => invokeHandler a data
    end.

End Call.

(** The argument of [getIndexArg] and [setIndexArg]: a value, or an
    array or an [Error] that has been given an own property [index],
    for which [JsVal] has no place on those two. *)
Inductive Input :=
| Bare (v : JsVal)
| IndexedArray (items : list JsVal) (index : JsVal)
| IndexedError (e : ErrorObj) (index : JsVal).

(** [input && typeof input === 'object'] *)
Definition isObject (input : Input) : bool :=
  match input with
  | Bare (JObj _) | Bare (JArr _) | Bare (JError _) => true
  | Bare _ => false
  | IndexedArray _ _ | IndexedError _ _ => true
  end.

(** [action.getIndexArg(input)]; [None] is the [null] it returns. *)
Definition getIndexArg (a : Action) (input : Input) : option JsVal :=
  if negb (hasIndex a) then None
  else if negb (isObject input) then None
  else match input with
       | Bare v =>
           match propertiesOf v with
           | Some fields => getProp "index" fields
           | None => None
           end
       | IndexedArray _ index | IndexedError _ index => Some index
       end.

(** [action.setIndexArg(input, newIndex)]: whether the index was set,
    and the input afterwards. *)
Definition setIndexArg (a : Action) (input : Input) (newIndex : Z) : bool * Input :=
  if negb (hasIndex a) then (false, input)
  else if negb (isObject input) then (false, input)
  else match input with
       | Bare (JObj fields) =>
           (true, Bare (JObj (setProp "index" (JNum newIndex) fields)))
       | Bare (JArr items) | IndexedArray items _ =>
           (true, IndexedArray items (JNum newIndex))
       | Bare (JError e) | IndexedError e _ =>
           (true, IndexedError e (JNum newIndex))
       | Bare _ => (false, input)
       end.

(** [buildDynamicActionSchema] *)
Definition buildDynamicActionSchema (actions : list Action) : ZodType :=
  fold_left
    (fun schema_ action =>
       let actionSchema := as_schema (schema action) in
       extend [(name action,
                describe (as_description (schema action))
                         (optional (nullable actionSchema)))]
              schema_)
    actions (object []).

End Builder.

(** ** The boolean coercion of the planner's output fields *)

Module Planner.

(** The callback given to [transform]. *)
Definition booleanOfString (val : JsVal) : Completion JsVal :=
  match val with
  | JStr s =>
      let lower := trim (toLowerCase s) in
      if String.eqb lower "true" then Normal (JBool true)
      else if String.eqb lower "false" then Normal (JBool false)
      else Throw (JError (newError
                    ("Invalid boolean string: " +:+ dquote +:+ s +:+ dquote)))
  | _ => Throw (JError (newTypeError "val.toLowerCase is not a function"))
  end.

Definition booleanStringSchema : ZodType :=
  union [boolean_; transform booleanOfString string_].

End Planner.

(** ** agents/base.ts: the model invocation layer *)

Module Agent.

Import Errors.

(** [ProviderTypeEnum] of [@extension/storage]: the provider identifiers
    the rule table compares with. Their values are not fixed here. *)
Record ProviderTypeEnum := mkProviders {
  Gemini : string;
  OpenAI : string;
  Anthropic : string;
  Llama : string;
  DeepSeek : string
}.

(** What [structuredLlm.invoke] resolves to with [includeRaw: true]. *)
Record StructuredResponse := mkStructured {
  parsed : JsVal;
  raw : option BaseMessage
}.

(** The chat model client: what a call settles with for given messages. *)
Record BaseChatModel := mkChatModel {
  llm_invoke : list BaseMessage -> Completion BaseMessage;
  llm_withStructuredOutput : ZodType -> list BaseMessage -> Completion StructuredResponse
}.

(** The fields of [BaseAgent] the invocation layer reads. *)
Record BaseAgent := mkAgent {
  chatLLM : BaseChatModel;
  modelOutputSchema : ZodType;
  provider : string;
  chatModelLibrary : string;
  modelName : string
}.

(** [setToolCallingMethod], run once by the constructor; [None] is the
    missing argument on the way in and [null] on the way out. *)
Definition setToolCallingMethod (this : BaseAgent) (toolCallingMethod : option string)
  : option string :=
  if decide (toolCallingMethod = Some "auto") then
    if decide (chatModelLibrary this = "ChatGoogleGenerativeAI") then None
    else if decide (chatModelLibrary this ∈
                      ["ChatOpenAI"; "AzureChatOpenAI"; "ChatGroq"; "ChatXAI"])
         then Some "function_calling"
         else None
  else match toolCallingMethod with
       | Some method => if String.eqb method EmptyString then None else Some method
       | None => None
       end.

Section WithCollaborators.

Variable providers : ProviderTypeEnum.

(** Helpers of [../messages/utils], which is not among the sources. *)
Variable removeThinkTags : string -> string.
Variable extractJsonFromModelOutput : string -> Completion JsVal.
Variable convertInputMessages : list BaseMessage -> string -> list BaseMessage.

Definition isLlamaModel (modelName_ : string) : bool :=
  includes modelName_ "Llama-4" || includes modelName_ "Llama-3.3"
  || includes modelName_ "llama-3.3".

(** [supportsVision] *)
Definition supportsVision (this : BaseAgent) : bool :=
  let modelNameLower := toLowerCase (modelName this) in
  if String.eqb (provider this) (Gemini providers)
     || String.eqb (chatModelLibrary this) "ChatGoogleGenerativeAI" then
    if includes modelNameLower "preview" then false
    else if includes modelNameLower "flash" && includes modelNameLower "2." then true
    else if includes modelNameLower "pro" && includes modelNameLower "2." then true
    else false
  else if String.eqb (provider this) (OpenAI providers)
          || String.eqb (chatModelLibrary this) "ChatOpenAI" then
    if includes modelNameLower "gpt-4o" || includes modelNameLower "gpt-5" then true
    else if includes modelNameLower "vision" then true
    else if includes modelNameLower "gpt-4-turbo" then true
    else false
  else if String.eqb (provider this) (Anthropic providers)
          || String.eqb (chatModelLibrary this) "ChatAnthropic" then
    if includes modelNameLower "claude-3" || includes modelNameLower "claude-4" then true
    else false
  else if String.eqb (provider this) (Llama providers)
          || isLlamaModel (modelName this) then false
  else if String.eqb (provider this) (DeepSeek providers) then false
  else false.

(** [setWithStructuredOutput], run once by the constructor. *)
Definition setWithStructuredOutput (this : BaseAgent) : bool :=
  if String.eqb (modelName this) "deepseek-reasoner"
     || String.eqb (modelName this) "deepseek-r1" then false
  else if String.eqb (provider this) (Llama providers)
          || isLlamaModel (modelName this) then false
  else true.

Definition withStructuredOutput (this : BaseAgent) : bool :=
  setWithStructuredOutput this.

(** The text a message with array content is reduced to. *)
Definition textContentOf (items : list ContentItem) : string :=
  join newline
    (map (fun item => match item_text item with
                      | Some text => text
                      | None => EmptyString
                      end)
         (filter (fun item => item_type item = "text") items)).

(** The callback of [messages.map] in [stripImagesFromMessages]. *)
Definition stripMessage (message : BaseMessage) : BaseMessage :=
  match content message with
  | ContentArray items =>
      {| msg_class := msg_class message;
         msg_fields := msg_fields message;
         content := ContentString (textContentOf items) |}
  | ContentString _ => message
  end.

(** [stripImagesFromMessages] *)
Definition stripImagesFromMessages (this : BaseAgent) (messages : list BaseMessage)
  : list BaseMessage :=
  if supportsVision this then messages
  else map stripMessage messages.

(** [validateModelOutput]; [undefined] is [JUndefined]. *)
Definition validateModelOutput (this : BaseAgent) (data : JsVal) : Completion JsVal :=
  if negb (truthy data) then Normal JUndefined
  else match parse (modelOutputSchema this) data with
       | Parsed v => Normal v
       | RaisedZodError _ | Raised _ =>
           Throw (JError (ResponseParseError "Could not validate model output"))
       end.

(** [manuallyParseResponse] *)
Definition manuallyParseResponse (this : BaseAgent) (content_ : string) : Eff JsVal :=
  let* _ := emit (EvManualParse content_) in
  let cleanedContent := removeThinkTags content_ in
  tryCatch
    (let* extractedJson := lift (extractJsonFromModelOutput cleanedContent) in
     lift (validateModelOutput this extractedJson))
    (fun _ => ret JUndefined).

(** [error instanceof Error ? error.message : String(error)] *)
Definition messageOf (error : JsVal) : Completion string :=
  match error with
  | JError e => Normal (err_message e)
  | _ => jsString error
  end.

(** The [try] block of the structured path: the value of the local
    variable [response] when the block is left, and how it is left. *)
Definition structuredTry (this : BaseAgent) (processedMessages : list BaseMessage)
  : Eff (option StructuredResponse * Completion JsVal) :=
  let* _ := emit (EvStructuredInvoke processedMessages) in
  match llm_withStructuredOutput (chatLLM this) (modelOutputSchema this)
          processedMessages with
  | Throw e => ret (None, Throw e)
  | Normal response =>
      if truthy (parsed response) then ret (Some response, Normal (parsed response))
      else ret (Some response,
                Throw (JError (newError
                         "Could not parse response with structured output")))
  end.

(** The [catch] block of the structured path. *)
Definition structuredCatch (this : BaseAgent) (response : option StructuredResponse)
           (error : JsVal) : Eff JsVal :=
  if isAbortedError error then throw error
  else
    let* errorMessage := lift (messageOf error) in
    let failed : Eff JsVal :=
      throw (JError (newError
               ("Failed to invoke " +:+ modelName this
                +:+ " with structured output: " +:+ newline +:+ errorMessage))) in
    match response with
    | Some {| raw := Some {| content := ContentString rawContent |} |} =>
        if includes errorMessage "is not valid JSON"
           && negb (String.eqb rawContent EmptyString) then
          let* parsed_ := manuallyParseResponse this rawContent in
          if truthy parsed_ then ret parsed_ else failed
        else failed
    | _ => failed
    end.

(** [invoke] *)
Definition invoke (this : BaseAgent) (inputMessages : list BaseMessage) : Eff JsVal :=
  let processedMessages := stripImagesFromMessages this inputMessages in
  if withStructuredOutput this then
    let* attempt := structuredTry this processedMessages in
    match attempt with
    | (_, Normal value) => ret value
    | (response, Throw error) => structuredCatch this response error
    end
  else
    let convertedInputMessages :=
      convertInputMessages processedMessages (modelName this) in
    let* unparsed :=
      tryCatch
        (let* _ := emit (EvInvoke convertedInputMessages) in
         let* response := lift (llm_invoke (chatLLM this) convertedInputMessages) in
         match content response with
         | ContentString text =>
             let* parsed_ := manuallyParseResponse this text in
             if truthy parsed_ then ret (Some parsed_) else ret None
         | ContentArray _ => ret None
         end)
        (fun error => throw error) in
    match unparsed with
    | Some value => ret value
    | None => throw (JError (ResponseParseError "Could not parse response"))
    end.

End WithCollaborators.

End Agent.

(** ** The vision rule table, in the words of the specification *)

Module VisionRules.

Import Agent.

(** The provider families the table has rows for. *)
Inductive Family := GeminiFamily | OpenAIFamily | AnthropicFamily.

(** An agent belongs to a family by its provider identifier or by the
    class of its chat model. *)
Definition inFamily (providers : ProviderTypeEnum) (this : BaseAgent) (f : Family)
  : bool :=
  match f with
  | GeminiFamily =>
      String.eqb (provider this) (Gemini providers)
      || String.eqb (chatModelLibrary this) "ChatGoogleGenerativeAI"
  | OpenAIFamily =>
      String.eqb (provider this) (OpenAI providers)
      || String.eqb (chatModelLibrary this) "ChatOpenAI"
  | AnthropicFamily =>
      String.eqb (provider this) (Anthropic providers)
      || String.eqb (chatModelLibrary this) "ChatAnthropic"
  end.

(** The known vision-support patterns of a family: each pattern lists the
    tokens the lower-cased model name must all contain. *)
Definition visionPatterns (f : Family) : list (list string) :=
  match f with
  | GeminiFamily => [["flash"; "2."]; ["pro"; "2."]]
  | OpenAIFamily => [["gpt-4o"]; ["gpt-5"]; ["vision"]; ["gpt-4-turbo"]]
  | AnthropicFamily => [["claude-3"]; ["claude-4"]]
  end.

(** Does the provider/model-name combination match a pattern of a family
    it belongs to? *)
Definition matchesVisionPattern (providers : ProviderTypeEnum) (this : BaseAgent)
  : bool :=
  existsb
    (fun f =>
       inFamily providers this f
       && existsb (fun tokens => forallb (includes (toLowerCase (modelName this))) tokens)
                  (visionPatterns f))
    [GeminiFamily; OpenAIFamily; AnthropicFamily].

End VisionRules.

(** ** The learned-pattern memory store *)

Module Memory.

Record LearnedPattern := mkPattern {
  id : string;
  taskType : string;
  domain : string;
  description : string;
  selectors : option (list string);
  actionSequence : option (list string);
  successCount : Z;
  lastUsed : Z;
  createdAt : Z
}.

(** [Omit<LearnedPattern, 'id' | 'createdAt' | 'successCount'>] *)
Record PatternInput := mkPatternInput {
  in_taskType : string;
  in_domain : string;
  in_description : string;
  in_selectors : option (list string);
  in_actionSequence : option (list string);
  in_lastUsed : Z
}.

Record UserPreference := mkPreference {
  key : string;
  value : string;
  learnedFrom : string;
  confidence : QArith_base.Q;
  lastUpdated : Z
}.

(** [Omit<UserPreference, 'lastUpdated'>] *)
Record PreferenceInput := mkPreferenceInput {
  in_key : string;
  in_value : string;
  in_learnedFrom : string;
  in_confidence : QArith_base.Q
}.

Record MemorySettings := mkSettings {
  enabled : bool;
  maxPatterns : Z;
  maxPreferences : Z
}.

(** The stored value; [settings] may be missing from older stores. *)
Record AgentMemory := mkMemory {
  settings : option MemorySettings;
  patterns : list LearnedPattern;
  preferences : list UserPreference
}.

Definition DEFAULT_MEMORY_SETTINGS : MemorySettings :=
  {| enabled := true; maxPatterns := 100; maxPreferences := 50 |}.

Definition DEFAULT_AGENT_MEMORY : AgentMemory :=
  {| settings := Some DEFAULT_MEMORY_SETTINGS; patterns := []; preferences := [] |}.

(** [memory.settings || DEFAULT_MEMORY_SETTINGS] *)
Definition settingsOf (memory : AgentMemory) : MemorySettings :=
  default DEFAULT_MEMORY_SETTINGS (settings memory).

(** [Array.prototype.sort(compare)]: a stable sort; [x] goes before [y]
    when [compare x y] is negative, and ties keep their order. *)
Section Sort.
Context {A : Type} (compare : A -> A -> Z).

Fixpoint insertSorted (x : A) (l : list A) : list A :=
  match l with
  | [] => [x]
  | y :: rest =>
      if (compare x y <=? 0)%Z then x :: y :: rest
      else y :: insertSorted x rest
  end.

Definition sort (l : list A) : list A := foldr insertSorted [] l.
End Sort.

(** [Array.prototype.slice(0, end)] for an integer [end]: a negative
    [end] counts from the back. *)
Definition slice0 {A : Type} (end_ : Z) (l : list A) : list A :=
  let len := Z.of_nat (length l) in
  let k := if (end_ <? 0)%Z then Z.max (len + end_) 0 else Z.min end_ len in
  take (Z.to_nat k) l.

(** The test of [findIndex] in [addPattern]. *)
Definition samePattern (pattern : PatternInput) (p : LearnedPattern) : Prop :=
  domain p = in_domain pattern /\ taskType p = in_taskType pattern
  /\ description p = in_description pattern.

#[local] Instance samePattern_dec pattern p : Decision (samePattern pattern p).
Proof. unfold samePattern. apply _. Defined.

(** The pattern [addPattern] stores for a new entry: [uuid] is the result
    of [crypto.randomUUID()], [now1] and [now2] those of the successive
    calls of [Date.now()]. *)
Definition newPatternOf (uuid : string) (now1 now2 : Z) (pattern : PatternInput)
  : LearnedPattern :=
  {| id := uuid; taskType := in_taskType pattern; domain := in_domain pattern;
     description := in_description pattern; selectors := in_selectors pattern;
     actionSequence := in_actionSequence pattern;
     successCount := 1; lastUsed := now2; createdAt := now1 |}.

(** [p.successCount++; p.lastUsed = Date.now()] *)
Definition markUsed (now : Z) (p : LearnedPattern) : LearnedPattern :=
  {| id := id p; taskType := taskType p; domain := domain p;
     description := description p; selectors := selectors p;
     actionSequence := actionSequence p;
     successCount := JsNumber.increment (successCount p); lastUsed := now;
     createdAt := createdAt p |}.

(** [memoryStore.addPattern] *)
Definition addPattern (uuid : string) (now1 now2 : Z) (pattern : PatternInput)
           (memory : AgentMemory) : AgentMemory :=
  let settings_ := settingsOf memory in
  match list_find (samePattern pattern) (patterns memory) with
  | Some (existingIndex, _) =>
      {| settings := settings memory;
         patterns := alter (markUsed now1) existingIndex (patterns memory);
         preferences := preferences memory |}
  | None =>
      let newPattern := newPatternOf uuid now1 now2 pattern in
      let patterns_ := patterns memory ++ [newPattern] in
      let patterns_ :=
        if (Z.of_nat (length patterns_) >? maxPatterns settings_)%Z
        then slice0 (maxPatterns settings_)
                    (sort (fun a b => lastUsed b - lastUsed a)%Z patterns_)
        else patterns_ in
      {| settings := settings memory;
         patterns := patterns_;
         preferences := preferences memory |}
  end.

(** The preference [setPreference] stores; [now] is the result of
    [Date.now()]. *)
Definition newPreferenceOf (now : Z) (preference : PreferenceInput) : UserPreference :=
  {| key := in_key preference; value := in_value preference;
     learnedFrom := in_learnedFrom preference;
     confidence := in_confidence preference; lastUpdated := now |}.

(** [memoryStore.setPreference] *)
Definition setPreference (now : Z) (preference : PreferenceInput)
           (memory : AgentMemory) : AgentMemory :=
  let settings_ := settingsOf memory in
  let newPref := newPreferenceOf now preference in
  let preferences_ :=
    match list_find (fun p => key p = in_key preference) (preferences memory) with
    | Some (existingIndex, _) => <[existingIndex := newPref]> (preferences memory)
    | None => preferences memory ++ [newPref]
    end in
  let preferences_ :=
    if (Z.of_nat (length preferences_) >? maxPreferences settings_)%Z
    then slice0 (maxPreferences settings_)
                (sort (fun a b => lastUpdated b - lastUpdated a)%Z preferences_)
    else preferences_ in
  {| settings := settings memory;
     patterns := patterns memory;
     preferences := preferences_ |}.

(** [Partial<MemorySettings>]: the fields the caller supplies. *)
Record PartialSettings := mkPartialSettings {
  set_enabled : option bool;
  set_maxPatterns : option Z;
  set_maxPreferences : option Z
}.

(** [memoryStore.getSettings] *)
Definition getSettings (memory : AgentMemory) : MemorySettings := settingsOf memory.

(** [memoryStore.updateSettings] *)
Definition updateSettings (settings_ : PartialSettings) (memory : AgentMemory)
  : AgentMemory :=
  let current := settingsOf memory in
  {| settings :=
       Some {| enabled := default (enabled current) (set_enabled settings_);
               maxPatterns := default (maxPatterns current) (set_maxPatterns settings_);
               maxPreferences :=
                 default (maxPreferences current) (set_maxPreferences settings_) |};
     patterns := patterns memory;
     preferences := preferences memory |}.

(** [memoryStore.isEnabled] *)
Definition isEnabled (memory : AgentMemory) : bool := enabled (getSettings memory).

(** [memoryStore.updatePatternSuccess]; [now] is [Date.now()]. *)
Definition updatePatternSuccess (now : Z) (id_ : string) (memory : AgentMemory)
  : AgentMemory :=
  match list_find (fun p => id p = id_) (patterns memory) with
  | Some (patternIndex, _) =>
      {| settings := settings memory;
         patterns := alter (markUsed now) patternIndex (patterns memory);
         preferences := preferences memory |}
  | None => memory
  end.

(** [memoryStore.getPatterns] *)
Definition getPatterns (memory : AgentMemory) : list LearnedPattern := patterns memory.

(** [memoryStore.getPatternsForDomain] *)
Definition getPatternsForDomain (domain_ : string) (memory : AgentMemory)
  : list LearnedPattern :=
  let domainLower := toLowerCase domain_ in
  filter (fun p => includes (toLowerCase (domain p)) domainLower = true)
         (getPatterns memory).

(** [memoryStore.getPatternsForTaskType] *)
Definition getPatternsForTaskType (taskType_ : string) (memory : AgentMemory)
  : list LearnedPattern :=
  let typeLower := toLowerCase taskType_ in
  filter (fun p => includes (toLowerCase (taskType p)) typeLower = true)
         (getPatterns memory).

(** [memoryStore.removePattern] *)
Definition removePattern (id_ : string) (memory : AgentMemory) : AgentMemory :=
  {| settings := settings memory;
     patterns := filter (fun p => id p <> id_) (patterns memory);
     preferences := preferences memory |}.

(** [memoryStore.getPreference] *)
Definition getPreference (key_ : string) (memory : AgentMemory) : option UserPreference :=
  snd <$> list_find (fun p => key p = key_) (preferences memory).

(** [memoryStore.getAllPreferences] *)
Definition getAllPreferences (memory : AgentMemory) : list UserPreference :=
  preferences memory.

(** [memoryStore.removePreference] *)
Definition removePreference (key_ : string) (memory : AgentMemory) : AgentMemory :=
  {| settings := settings memory;
     patterns := patterns memory;
     preferences := filter (fun p => key p <> key_) (preferences memory) |}.

(** [memoryStore.clearMemory] *)
Definition clearMemory (memory : AgentMemory) : AgentMemory :=
  {| settings := settings memory; patterns := []; preferences := [] |}.

(** [memoryStore.getMemoryStats]: [patternCount] and [preferenceCount]. *)
Definition getMemoryStats (memory : AgentMemory) : nat * nat :=
  (length (patterns memory), length (preferences memory)).

End Memory.

(** ** The user profile store *)

Module UserStore.

Record StoredCredential := mkCredential {
  id : string;
  site : string;
  username : string;
  password : string;
  createdAt : Z;
  lastUsed : option Z
}.

(** [Omit<StoredCredential, 'id' | 'createdAt'>] *)
Record CredentialInput := mkCredentialInput {
  in_site : string;
  in_username : string;
  in_password : string;
  in_lastUsed : option Z
}.

Record UserProfile := mkProfile {
  userId : string;
  firstName : option string;
  lastName : option string;
  email : option string;
  phone : option string;
  street : option string;
  city : option string;
  state : option string;
  zipCode : option string;
  country : option string;
  credentials : option (list StoredCredential)
}.

(** One key of a [Partial<...>] argument: left out, or given with a
    value. *)
Inductive Patch (A : Type) :=
| Keep
| Put (v : A).
Arguments Keep {A}.
Arguments Put {A} v.

(** The value of a field after the spread [{...current, ...partial}]. *)
Definition patched {A : Type} (current : A) (p : Patch A) : A :=
  match p with Keep => current | Put v => v end.

(** [Partial<UserProfile>] *)
Record PartialProfile := mkPartialProfile {
  p_userId : Patch string;
  p_firstName : Patch (option string);
  p_lastName : Patch (option string);
  p_email : Patch (option string);
  p_phone : Patch (option string);
  p_street : Patch (option string);
  p_city : Patch (option string);
  p_state : Patch (option string);
  p_zipCode : Patch (option string);
  p_country : Patch (option string);
  p_credentials : Patch (option (list StoredCredential))
}.

(** [{}] *)
Definition noPatch : PartialProfile :=
  {| p_userId := Keep; p_firstName := Keep; p_lastName := Keep; p_email := Keep;
     p_phone := Keep; p_street := Keep; p_city := Keep; p_state := Keep;
     p_zipCode := Keep; p_country := Keep; p_credentials := Keep |}.

(** [Partial<StoredCredential>] *)
Record PartialCredential := mkPartialCredential {
  u_id : Patch string;
  u_site : Patch string;
  u_username : Patch string;
  u_password : Patch string;
  u_createdAt : Patch Z;
  u_lastUsed : Patch (option Z)
}.

Definition DEFAULT_USER_PROFILE : UserProfile :=
  {| userId := "unknown"; firstName := None; lastName := None; email := None;
     phone := None; street := None; city := None; state := None; zipCode := None;
     country := None; credentials := Some [] |}.

(** [{...base, ...profile}] *)
Definition spreadProfile (base : UserProfile) (profile : PartialProfile) : UserProfile :=
  {| userId := patched (userId base) (p_userId profile);
     firstName := patched (firstName base) (p_firstName profile);
     lastName := patched (lastName base) (p_lastName profile);
     email := patched (email base) (p_email profile);
     phone := patched (phone base) (p_phone profile);
     street := patched (street base) (p_street profile);
     city := patched (city base) (p_city profile);
     state := patched (state base) (p_state profile);
     zipCode := patched (zipCode base) (p_zipCode profile);
     country := patched (country base) (p_country profile);
     credentials := patched (credentials base) (p_credentials profile) |}.

(** [userStore.createProfile]: the stored profile afterwards. *)
Definition createProfile (profile : PartialProfile) : UserProfile :=
  spreadProfile DEFAULT_USER_PROFILE profile.

(** [userStore.updateProfile] *)
Definition updateProfile (profile : PartialProfile) (stored : UserProfile) : UserProfile :=
  spreadProfile stored profile.

(** [userStore.getProfile] *)
Definition getProfile (stored : UserProfile) : UserProfile := stored.

(** [userStore.getUserId]: the identifier returned and the store
    afterwards; [uuid] is what [crypto.randomUUID()] would give. *)
Definition getUserId (uuid : string) (stored : UserProfile) : string * UserProfile :=
  let profile := getProfile stored in
  if String.eqb (userId profile) EmptyString || String.eqb (userId profile) "unknown"
  then
    let newUserId := uuid in
    (newUserId,
     updateProfile
       {| p_userId := Put newUserId; p_firstName := Keep; p_lastName := Keep;
          p_email := Keep; p_phone := Keep; p_street := Keep; p_city := Keep;
          p_state := Keep; p_zipCode := Keep; p_country := Keep;
          p_credentials := Keep |}
       stored)
  else (userId profile, stored).

(** [updateProfile({ credentials })] *)
Definition withCredentials (creds : list StoredCredential) : PartialProfile :=
  {| p_userId := Keep; p_firstName := Keep; p_lastName := Keep; p_email := Keep;
     p_phone := Keep; p_street := Keep; p_city := Keep; p_state := Keep;
     p_zipCode := Keep; p_country := Keep; p_credentials := Put (Some creds) |}.

(** [userStore.getCredentials] *)
Definition getCredentials (stored : UserProfile) : list StoredCredential :=
  default [] (credentials (getProfile stored)).

(** [userStore.addCredential]; [uuid] and [now] are the results of
    [crypto.randomUUID()] and [Date.now()]. *)
Definition addCredential (uuid : string) (now : Z) (credential : CredentialInput)
           (stored : UserProfile) : UserProfile :=
  let profile := getProfile stored in
  let newCredential :=
    {| id := uuid; site := in_site credential; username := in_username credential;
       password := in_password credential; createdAt := now;
       lastUsed := in_lastUsed credential |} in
  let credentials_ := default [] (credentials profile) in
  updateProfile (withCredentials (credentials_ ++ [newCredential])) stored.

(** [{...cred, ...updates}] *)
Definition spreadCredential (cred : StoredCredential) (updates : PartialCredential)
  : StoredCredential :=
  {| id := patched (id cred) (u_id updates);
     site := patched (site cred) (u_site updates);
     username := patched (username cred) (u_username updates);
     password := patched (password cred) (u_password updates);
     createdAt := patched (createdAt cred) (u_createdAt updates);
     lastUsed := patched (lastUsed cred) (u_lastUsed updates) |}.

(** [userStore.updateCredential] *)
Definition updateCredential (id_ : string) (updates : PartialCredential)
           (stored : UserProfile) : UserProfile :=
  let profile := getProfile stored in
  let credentials_ :=
    map (fun cred => if String.eqb (id cred) id_ then spreadCredential cred updates
                     else cred)
        (default [] (credentials profile)) in
  updateProfile (withCredentials credentials_) stored.

(** [userStore.removeCredential] *)
Definition removeCredential (id_ : string) (stored : UserProfile) : UserProfile :=
  let profile := getProfile stored in
  let credentials_ :=
    filter (fun cred => id cred <> id_) (default [] (credentials profile)) in
  updateProfile (withCredentials credentials_) stored.

(** The test of [find] in [getCredentialForSite]. *)
Definition siteMatches (siteLower : string) (cred : StoredCredential) : Prop :=
  includes (toLowerCase (site cred)) siteLower
  || includes siteLower (toLowerCase (site cred)) = true.

#[local] Instance siteMatches_dec siteLower cred : Decision (siteMatches siteLower cred).
Proof. unfold siteMatches. apply _. Defined.

(** [userStore.getCredentialForSite] *)
Definition getCredentialForSite (site_ : string) (stored : UserProfile)
  : option StoredCredential :=
  let credentials_ := getCredentials stored in
  let siteLower := toLowerCase site_ in
  snd <$> list_find (siteMatches siteLower) credentials_.

(** The nine form fields [getFormData] returns, in its order. *)
Record FormData := mkFormData {
  f_firstName : option string;
  f_lastName : option string;
  f_email : option string;
  f_phone : option string;
  f_street : option string;
  f_city : option string;
  f_state : option string;
  f_zipCode : option string;
  f_country : option string
}.

(** [userStore.getFormData] *)
Definition getFormData (stored : UserProfile) : FormData :=
  let profile := getProfile stored in
  {| f_firstName := firstName profile; f_lastName := lastName profile;
     f_email := email profile; f_phone := phone profile;
     f_street := street profile; f_city := city profile;
     f_state := state profile; f_zipCode := zipCode profile;
     f_country := country profile |}.

End UserStore.

(** ** The text-to-speech service *)

Module TextToSpeech.

(** The fields of a [SpeechSynthesisVoice] the service reads. *)
Record Voice := mkVoice {
  voice_name : string;
  lang : string;
  default_ : bool
}.

(** The fields of [VoiceSettings] that [speak] reads. *)
Record VoiceSettings := mkVoiceSettings {
  ttsEnabled : bool;
  ttsVoice : string;
  ttsRate : QArith_base.Q;
  ttsPitch : QArith_base.Q
}.

(** The optional argument of [speak]. *)
Record SpeakOptions := mkSpeakOptions {
  voiceName : option string;
  rate : option QArith_base.Q;
  pitch : option QArith_base.Q
}.

(** The [SpeechSynthesisUtterance] handed to the synthesizer. *)
Record Utterance := mkUtterance {
  u_text : string;
  u_voice : option Voice;
  u_rate : QArith_base.Q;
  u_pitch : QArith_base.Q
}.

(** What [speak] asks of the synthesizer. *)
Inductive SynthEvent :=
| SynthCancel
| SynthSpeak (utterance : Utterance).

(** [getVoiceNames] *)
Definition getVoiceNames (voices : list Voice) : list string := map voice_name voices.

(** [findVoice] *)
Definition findVoice (voices : list Voice) (name : string) : option Voice :=
  snd <$> list_find (fun v => voice_name v = name) voices.

(** [v.lang.startsWith('en-')] *)
Definition isEnglish (v : Voice) : bool := String.prefix "en-" (lang v).

(** [getDefaultVoice] *)
Definition getDefaultVoice (voices : list Voice) : option Voice :=
  let englishVoice :=
    snd <$> list_find (fun v => isEnglish v && default_ v = true) voices in
  match englishVoice with
  | Some v => Some v
  | None =>
      let anyEnglish := snd <$> list_find (fun v => isEnglish v = true) voices in
      match anyEnglish with
      | Some v => Some v
      | None =>
          match snd <$> list_find (fun v => default_ v = true) voices with
          | Some v => Some v
          | None => head voices
          end
      end
  end.

(** [speak]: the requests made of the synthesizer. [synth] tells whether
    speech synthesis is available, [settings] is what
    [voiceSettingsStore.getSettings()] returned. *)
Definition speak (synth : bool) (voices : list Voice) (settings : VoiceSettings)
           (text : string) (options : option SpeakOptions) : list SynthEvent :=
  if negb synth then []
  else if negb (ttsEnabled settings) then []
  else
    let voiceName_ :=
      match options ≫= voiceName with
      | Some n => if String.eqb n EmptyString then ttsVoice settings else n
      | None => ttsVoice settings
      end in
    let named :=
      if String.eqb voiceName_ EmptyString then None
      else findVoice voices voiceName_ in
    let voice :=
      match named with
      | Some v => Some v
      | None => getDefaultVoice voices
      end in
    [SynthCancel;
     SynthSpeak {| u_text := text;
                   u_voice := voice;
                   u_rate := default (ttsRate settings) (options ≫= rate);
                   u_pitch := default (ttsPitch settings) (options ≫= pitch) |}].

End TextToSpeech.

(** ** Concrete agents, models and stores for the examples *)

Module Samples.

(** The identifiers [@extension/storage] gives the five providers. *)
Definition providers : Agent.ProviderTypeEnum :=
  {| Agent.Gemini := "gemini"; Agent.OpenAI := "openai";
     Agent.Anthropic := "anthropic"; Agent.Llama := "llama";
     Agent.DeepSeek := "deepseek" |}.

Definition aiMessage (text : string) : BaseMessage :=
  {| msg_class := "AIMessage"; msg_fields := []; content := ContentString text |}.

(** A model whose every call is rejected with [e]. *)
Definition failingModel (e : JsVal) : Agent.BaseChatModel :=
  {| Agent.llm_invoke := fun _ => Throw e;
     Agent.llm_withStructuredOutput := fun _ _ => Throw e |}.

(** A model that answers with the text [text]; its structured call could
    not parse it and reports [parsed: null] next to the raw message. *)
Definition unparsedModel (text : string) : Agent.BaseChatModel :=
  {| Agent.llm_invoke := fun _ => Normal (aiMessage text);
     Agent.llm_withStructuredOutput :=
       fun _ _ => Normal {| Agent.parsed := JNull;
                            Agent.raw := Some (aiMessage text) |} |}.

Definition agentOf (llm : Agent.BaseChatModel) (provider_ library modelName_ : string)
  : Agent.BaseAgent :=
  {| Agent.chatLLM := llm;
     Agent.modelOutputSchema := object [("done", Planner.booleanStringSchema)];
     Agent.provider := provider_;
     Agent.chatModelLibrary := library;
     Agent.modelName := modelName_ |}.

(** An abort whose message also carries a 403 marker. *)
Definition abort403 : ErrorObj :=
  {| err_name := "AbortError";
     err_message := "Request failed with status 403";
     err_status := None |}.

Definition okResult : Builder.ActionResult :=
  {| Builder.extractedContent := Some "ok"; Builder.error := None;
     Builder.isDone := false; Builder.includeInMemory := true |}.

(** A capability without parameters: its schema is [z.object({})]. *)
Definition scrollToTop : Builder.Action :=
  {| Builder.handler := fun _ => Normal okResult;
     Builder.schema := {| Builder.as_name := "scroll_to_top";
                          Builder.as_description := "Scroll to the top of the page";
                          Builder.as_schema := object [] |};
     Builder.hasIndex := false;
     Builder.needsDelay := true |}.

(** A capability with one required string parameter. *)
Definition goToUrl : Builder.Action :=
  {| Builder.handler := fun _ => Normal okResult;
     Builder.schema := {| Builder.as_name := "go_to_url";
                          Builder.as_description := "Navigate to URL";
                          Builder.as_schema := object [("url", string_)] |};
     Builder.hasIndex := false;
     Builder.needsDelay := true |}.

(** A capability without parameters under a given name. *)
Definition named (name_ : string) : Builder.Action :=
  {| Builder.handler := fun _ => Normal okResult;
     Builder.schema := {| Builder.as_name := name_;
                          Builder.as_description := "No parameters";
                          Builder.as_schema := object [] |};
     Builder.hasIndex := false;
     Builder.needsDelay := true |}.

(** A capability whose parameter is a boolean or its spelling. *)
Definition confirm : Builder.Action :=
  {| Builder.handler := fun _ => Normal okResult;
     Builder.schema := {| Builder.as_name := "confirm";
                          Builder.as_description := "Confirm or decline";
                          Builder.as_schema :=
                            object [("accepted", Planner.booleanStringSchema)] |};
     Builder.hasIndex := false;
     Builder.needsDelay := true |}.

(** A user message with a caption and a screenshot. *)
Definition screenshotMessage : BaseMessage :=
  {| msg_class := "HumanMessage";
     msg_fields := [];
     content := ContentArray
                  [ {| item_type := "text"; item_text := Some "Current page:";
                       item_image_url := None |};
                    {| item_type := "image_url"; item_text := None;
                       item_image_url := Some "data:image/jpeg;base64,AAAA" |};
                    {| item_type := "text"; item_text := Some "What next?";
                       item_image_url := None |} ] |}.

Definition patternAt (id_ domain_ : string) (used : Z) : Memory.LearnedPattern :=
  {| Memory.id := id_; Memory.taskType := "search"; Memory.domain := domain_;
     Memory.description := "search box first"; Memory.selectors := None;
     Memory.actionSequence := None; Memory.successCount := 1;
     Memory.lastUsed := used; Memory.createdAt := used |}.

Definition patternInput (domain_ : string) : Memory.PatternInput :=
  {| Memory.in_taskType := "search"; Memory.in_domain := domain_;
     Memory.in_description := "search box first"; Memory.in_selectors := None;
     Memory.in_actionSequence := None; Memory.in_lastUsed := 0 |}.

Definition preferenceInput (key_ value_ : string) : Memory.PreferenceInput :=
  {| Memory.in_key := key_; Memory.in_value := value_;
     Memory.in_learnedFrom := "settings";
     Memory.in_confidence := QArith_base.Qmake 1 2 |}.

(** A store at its limits: two patterns of at most two, one preference of
    at most one. *)
Definition fullMemory : Memory.AgentMemory :=
  {| Memory.settings := Some {| Memory.enabled := true; Memory.maxPatterns := 2;
                                Memory.maxPreferences := 1 |};
     Memory.patterns := [patternAt "p1" "a.example" 10; patternAt "p2" "b.example" 30];
     Memory.preferences :=
       [Memory.newPreferenceOf 5 (preferenceInput "language" "en")] |}.

(** A model whose structured call parses its reply into [value]. *)
Definition parsedModel (value : JsVal) : Agent.BaseChatModel :=
  {| Agent.llm_invoke := fun _ => Normal (aiMessage "{}");
     Agent.llm_withStructuredOutput :=
       fun _ _ => Normal {| Agent.parsed := value; Agent.raw := None |} |}.

(** A capability that refers to an element by its index. *)
Definition clickElement : Builder.Action :=
  {| Builder.handler := fun _ => Normal okResult;
     Builder.schema := {| Builder.as_name := "click_element";
                          Builder.as_description := "Click element by index";
                          Builder.as_schema := object [("index", number_)] |};
     Builder.hasIndex := true;
     Builder.needsDelay := true |}.

Definition credentialAt (id_ site_ : string) : UserStore.StoredCredential :=
  {| UserStore.id := id_; UserStore.site := site_; UserStore.username := "ada";
     UserStore.password := "secret"; UserStore.createdAt := 1;
     UserStore.lastUsed := None |}.

(** A profile with a name and two credentials. *)
Definition profile : UserStore.UserProfile :=
  {| UserStore.userId := "unknown"; UserStore.firstName := Some "Ada";
     UserStore.lastName := None; UserStore.email := None; UserStore.phone := None;
     UserStore.street := None; UserStore.city := None; UserStore.state := None;
     UserStore.zipCode := None; UserStore.country := None;
     UserStore.credentials :=
       Some [credentialAt "c1" "Mail.Example.com"; credentialAt "c2" "shop.example"] |}.

Definition voices : list TextToSpeech.Voice :=
  [ {| TextToSpeech.voice_name := "Anna"; TextToSpeech.lang := "de-DE";
       TextToSpeech.default_ := true |};
    {| TextToSpeech.voice_name := "Daniel"; TextToSpeech.lang := "en-GB";
       TextToSpeech.default_ := false |} ].

Definition voiceSettings : TextToSpeech.VoiceSettings :=
  {| TextToSpeech.ttsEnabled := true; TextToSpeech.ttsVoice := "Samantha";
     TextToSpeech.ttsRate := QArith_base.Qmake 1 1;
     TextToSpeech.ttsPitch := QArith_base.Qmake 1 1 |}.

End Samples.

(** * Properties *)

Import Errors.

(** ** Strings *)

Lemma prefix_refl (s : string) : String.prefix s s = true.
Proof.
  induction s as [|c s IH]; simpl; [reflexivity|].
  destruct (Ascii.ascii_dec c c) as [_|Hne]; [exact IH | contradiction].
Qed.

Lemma includes_refl (s : string) : includes s s = true.
Proof.
  destruct s as [|c s]; [reflexivity|].
  cbn [includes]. rewrite prefix_refl. reflexivity.
Qed.

Example includes_status : includes "Request failed with status 403" " 403" = true.
Proof. reflexivity. Qed.

Example trim_lower_padded : trim (toLowerCase " True ") = "true".
Proof. reflexivity. Qed.

Example jsString_array :
  jsString (JArr [JNum (-4); JNull; JStr "a"]) = Normal "-4,,a".
Proof. reflexivity. Qed.

(** Numbers print as [Number::toString] prints them: every digit up to
    2^53, the shortest digits that give the number back beyond, and the
    exponent form from 10^21. *)
Example jsString_numbers :
  jsString (JNum 401) = Normal "401"
  /\ jsString (JNum (2 ^ 53)) = Normal "9007199254740992"
  /\ jsString (JNum (2 ^ 64)) = Normal "18446744073709552000"
  /\ jsString (JNum (10 ^ 21)) = Normal "1e+21"
  /\ jsString (JNum (- 2 ^ 70)) = Normal "-1.1805916207174113e+21".
Proof. repeat split; vm_compute; reflexivity. Qed.

(** An object whose own [toString] is no function cannot be converted. *)
Example jsString_throws :
  jsString (JObj [("toString", JNum 1)]) = Throw notPrimitive
  /\ jsString (JArr [JStr "a"; JObj [("toString", JNull)]]) = Throw notPrimitive
  /\ jsString (JObj [("valueOf", JNum 1)]) = Normal "[object Object]".
Proof. repeat split; reflexivity. Qed.

(** ** The error taxonomy *)

(** The five predicates on the values the tests of [errors.test.ts] use. *)
Example errors_test_values :
  isAuthenticationError (JStr "string error") = false
  /\ isAuthenticationError JNull = false
  /\ isAuthenticationError JUndefined = false
  /\ isForbiddenError (JStr "forbidden") = false
  /\ isBadRequestError (JNum 400) = false
  /\ isAbortedError (JStr "aborted") = false
  /\ isForbiddenError (JError (newError "Request failed with status 403")) = true
  /\ isAbortedError (JError (newError "Request Aborted by client")) = true
  /\ isExtensionConflictError
       (JStr "Cannot access a chrome-extension of different extension") = Normal true.
Proof. repeat split; reflexivity. Qed.

(** *** Numbers never carry the conflict wording *)

Lemma unmarked_app (a b : string) : unmarked a -> unmarked b -> unmarked (a +:+ b).
Proof.
  unfold unmarked. intros Ha Hb. induction a as [|c a IH]; [exact Hb|].
  change (String c a +:+ b) with (String c (a +:+ b)). simpl in *.
  apply Forall_cons in Ha as [Hc Ha]. constructor; [exact Hc | exact (IH Ha)].
Qed.

Lemma unmarked_includes (s needle : string) :
  unmarked s -> includes (toLowerCase s) (String "c" needle) = false.
Proof.
  unfold unmarked. induction s as [|c s IH]; intros H; [reflexivity|].
  change (toLowerCase (String c s)) with (String (lowerUnit c) (toLowerCase s)).
  cbn [list_ascii_of_string] in H. apply Forall_cons in H as [Hc Hs].
  cbn [includes String.prefix]. rewrite (IH Hs).
  destruct (Ascii.ascii_dec "c" (lowerUnit c)) as [E|_]; [|reflexivity].
  exfalso. apply Hc. symmetry. exact E.
Qed.

Lemma unmarked_digit (x : N) : lowerUnit (pretty_N_char x) <> "c"%char.
Proof.
  unfold pretty_N_char.
  repeat match goal with
         | |- context [match ?y with _ => _ end] => destruct y
         end; discriminate.
Qed.

Lemma unmarked_pretty_N_go (x : N) (s : string) :
  unmarked s -> unmarked (pretty_N_go x s).
Proof.
  revert s. induction (N.lt_wf_0 x) as [x _ IH]; intros s Hs.
  destruct (decide (x = 0)%N) as [->|Hx]; [exact Hs|].
  rewrite pretty_N_go_step by lia. apply IH.
  - apply N.div_lt; lia.
  - constructor; [apply unmarked_digit | exact Hs].
Qed.

Lemma unmarked_pretty_N (x : N) : unmarked (pretty x).
Proof.
  unfold pretty, pretty_N. destruct (decide (x = 0)%N).
  - repeat constructor; discriminate.
  - apply unmarked_pretty_N_go. constructor.
Qed.

Lemma unmarked_pretty_Z (x : Z) : unmarked (pretty x).
Proof.
  destruct x as [|p|p]; unfold pretty, pretty_Z, pretty_positive.
  - repeat constructor; discriminate.
  - apply unmarked_pretty_N.
  - apply unmarked_app; [repeat constructor; discriminate | apply unmarked_pretty_N].
Qed.

Lemma unmarked_significand (digits : string) :
  unmarked digits -> unmarked (JsNumber.significand digits).
Proof.
  unfold unmarked, JsNumber.significand. intros H.
  rewrite list_ascii_of_string_of_list_ascii.
  apply Forall_rev. apply Forall_rev in H.
  induction H as [|c l Hc Hl IH]; simpl; [constructor|].
  destruct (Ascii.eqb c "0"); [exact IH | constructor; assumption].
Qed.

Lemma unmarked_toString (n : Z) : unmarked (JsNumber.toString n).
Proof.
  assert (Hpos : forall x, unmarked (JsNumber.positiveToString x)).
  { intros x. unfold JsNumber.positiveToString.
    destruct (2 ^ 1024 <=? x)%Z; [repeat constructor; discriminate|].
    set (text := pretty (JsNumber.shortest x _)).
    assert (Ht : unmarked text) by apply unmarked_pretty_Z.
    destruct (String.length text <=? 21)%nat; [exact Ht|].
    pose proof (unmarked_significand text Ht) as Hs.
    destruct (JsNumber.significand text) as [|d [|d' rest]]; [exact Ht| |].
    - apply Forall_cons in Hs as [Hd _]. constructor; [exact Hd|].
      apply (unmarked_app "e+"); [repeat constructor; discriminate|].
      apply unmarked_pretty_N.
    - apply Forall_cons in Hs as [Hd Hrest]. constructor; [exact Hd|].
      apply (unmarked_app "."); [repeat constructor; discriminate|].
      apply unmarked_app; [exact Hrest|].
      apply (unmarked_app "e+"); [repeat constructor; discriminate|].
      apply unmarked_pretty_N. }
  unfold JsNumber.toString.
  destruct (JsNumber.toDouble n =? 0)%Z; [repeat constructor; discriminate|].
  destruct (JsNumber.toDouble n <? 0)%Z; [|apply Hpos].
  apply (unmarked_app "-"); [repeat constructor; discriminate | apply Hpos].
Qed.

(** C7, as stated, fails twice over for [isExtensionConflictError]: a
    string that is not an [Error] instance and carries the conflict
    wording makes it answer [true], and on an object whose own [toString]
    is no function the conversion [String(error)] throws a [TypeError],
    and the predicate with it. *)
Lemma C7_counterexample :
  let v := JStr "Cannot access a chrome-extension of different extension" in
  let w := JObj [("toString", JNum 1)] in
  instanceofError v = false
  /\ isExtensionConflictError v = Normal true
  /\ instanceofError w = false
  /\ isExtensionConflictError w = Throw notPrimitive
  /\ ~ (forall x : JsVal, instanceofError x = false ->
         isAuthenticationError x = false /\ isForbiddenError x = false
         /\ isBadRequestError x = false /\ isAbortedError x = false
         /\ isExtensionConflictError x = Normal false).
Proof.
  cbv zeta. do 4 (split; [reflexivity|]).
  intros H.
  specialize (H (JStr "Cannot access a chrome-extension of different extension")
                eq_refl).
  destruct H as (_ & _ & _ & _ & H). vm_compute in H. discriminate H.
Qed.

(** C7, amended: on every value that is not an [Error] instance the
    predicates [isAuthenticationError], [isForbiddenError],
    [isBadRequestError] and [isAbortedError] return [false] (they test
    [instanceof Error] first and do not throw). [isExtensionConflictError]
    converts the value with [String(error)]: whenever the conversion gives
    a text, the predicate returns without throwing, and returns [true]
    exactly when the lower-cased text holds both conflict markers; it
    throws nothing but what the conversion throws. So it returns [false]
    for [undefined], [null], booleans and numbers, and for a string it
    returns, without throwing, whether the lower-cased string holds both
    markers. *)
Theorem C7_predicates_on_non_errors (v : JsVal) :
  instanceofError v = false ->
  isAuthenticationError v = false
  /\ isForbiddenError v = false
  /\ isBadRequestError v = false
  /\ isAbortedError v = false
  /\ (forall text, jsString v = Normal text ->
        isExtensionConflictError v
        = Normal (includes (toLowerCase text) "cannot access a chrome-extension"
                  && includes (toLowerCase text) "of different extension"))
  /\ (forall e, isExtensionConflictError v = Throw e -> jsString v = Throw e)
  /\ match v with
     | JUndefined | JNull | JBool _ | JNum _ =>
         isExtensionConflictError v = Normal false
     | JStr s =>
         isExtensionConflictError v
         = Normal (includes (toLowerCase s) "cannot access a chrome-extension"
                   && includes (toLowerCase s) "of different extension")
     | _ => True
     end.
Proof.
  intros Hne. destruct v as [| |b|n|s|items|fields|e]; try discriminate Hne;
    (do 4 (split; [reflexivity|]));
    (split; [intros text Ht; unfold isExtensionConflictError, messageOrString;
             rewrite Ht; reflexivity|]);
    (split; [intros e He; unfold isExtensionConflictError, messageOrString in He;
             match type of He with
             | context [match ?c with _ => _ end] =>
                 destruct c as [text|e'] eqn:Hc; [discriminate He|]
             end; injection He as ->; reflexivity|]);
    try exact I; try reflexivity.
  - destruct b; reflexivity.
  - unfold isExtensionConflictError, messageOrString, jsString.
    rewrite unmarked_includes by apply unmarked_toString. reflexivity.
Qed.

Lemma C7_predicates_on_non_errors_witness :
  isAuthenticationError (JNum 401) = false
  /\ isForbiddenError (JNum 401) = false
  /\ isBadRequestError (JNum 401) = false
  /\ isAbortedError (JNum 401) = false
  /\ isExtensionConflictError (JNum 401) = Normal false
  /\ isExtensionConflictError (JStr "of different extension") = Normal false.
Proof.
  destruct (C7_predicates_on_non_errors (JNum 401) eq_refl)
    as (H1 & H2 & H3 & H4 & _ & _ & H5).
  destruct (C7_predicates_on_non_errors (JStr "of different extension") eq_refl)
    as (_ & _ & _ & _ & H6 & _).
  split; [exact H1|]. split; [exact H2|]. split; [exact H3|]. split; [exact H4|].
  split; [exact H5 | exact (H6 "of different extension" eq_refl)].
Defined.

(** ** The model invocation layer *)

Section InvocationLayer.

Context (providers : Agent.ProviderTypeEnum)
        (removeThinkTags : string -> string)
        (extractJsonFromModelOutput : string -> Completion JsVal)
        (convertInputMessages : list BaseMessage -> string -> list BaseMessage).

Local Abbreviation invoke :=
  (Agent.invoke providers removeThinkTags extractJsonFromModelOutput convertInputMessages).
Local Abbreviation structuredCatch :=
  (Agent.structuredCatch removeThinkTags extractJsonFromModelOutput).
Local Abbreviation manuallyParseResponse :=
  (Agent.manuallyParseResponse removeThinkTags extractJsonFromModelOutput).
Local Abbreviation stripImagesFromMessages := (Agent.stripImagesFromMessages providers).
Local Abbreviation withStructuredOutput := (Agent.withStructuredOutput providers).

(** The [catch] block rethrows an aborted error untouched, whatever its
    message says and whatever [response] holds. *)
Lemma structuredCatch_aborted this response error tr :
  isAbortedError error = true ->
  structuredCatch this response error tr = (Throw error, tr).
Proof. intros H. unfold Agent.structuredCatch. rewrite H. reflexivity. Qed.

(** [manuallyParseResponse] never throws: it records the attempt and
    returns a value, [undefined] when extraction or validation failed. *)
Lemma manuallyParseResponse_returns this text tr :
  exists v, manuallyParseResponse this text tr = (Normal v, tr ++ [EvManualParse text]).
Proof.
  unfold Agent.manuallyParseResponse, bind, emit, tryCatch, lift, ret.
  destruct (extractJsonFromModelOutput (removeThinkTags text)) as [j|e]; [|eauto].
  destruct (Agent.validateModelOutput this j); eauto.
Qed.

(** C3: an error named [AbortError] whose message contains [403] is
    recognised by [isAbortedError] and, with the predicates applied in the
    priority order, classified [Aborted] and not [Forbidden]; the [catch]
    block of [invoke] tests [isAbortedError] first and rethrows the error
    before it looks at the message text. *)
Theorem C3_abort_preempts_forbidden (e : ErrorObj) :
  err_name e = "AbortError" ->
  includes (err_message e) "403" = true ->
  isAbortedError (JError e) = true
  /\ classify (JError e) = Normal Aborted
  /\ classify (JError e) <> Normal Forbidden
  /\ (forall this response tr,
        structuredCatch this response (JError e) tr = (Throw (JError e), tr)).
Proof.
  intros Hname _.
  assert (Hab : isAbortedError (JError e) = true).
  { unfold isAbortedError. rewrite Hname. reflexivity. }
  split; [exact Hab|].
  assert (Hc : classify (JError e) = Normal Aborted).
  { unfold classify. rewrite Hab. reflexivity. }
  split; [exact Hc|]. split; [rewrite Hc; discriminate|].
  intros this response tr. apply structuredCatch_aborted, Hab.
Qed.


(** Whatever reaches the [catch] block of the structured path and is not
    an abort ends in a recovered value or in the plain [Error] built
    there; a failed recovery, too, ends in that plain [Error]. *)
Lemma structuredCatch_outcomes this response error message tr :
  isAbortedError error = false ->
  Agent.messageOf error = Normal message ->
  exists tr',
    structuredCatch this response error tr
    = (Throw (JError (newError
                ("Failed to invoke " +:+ Agent.modelName this
                 +:+ " with structured output: " +:+ newline
                 +:+ message))), tr')
    \/ exists v, truthy v = true
                 /\ structuredCatch this response error tr = (Normal v, tr').
Proof.
  intros Hab Hmsg. unfold Agent.structuredCatch. rewrite Hab, Hmsg.
  change (bind (lift (Normal message)) ?k tr) with (k message tr). cbv beta.
  destruct response as [[p [[c f [text|items]]|]]|]; try (eexists; left; reflexivity).
  destruct (includes message "is not valid JSON"
            && negb (String.eqb text EmptyString));
    [|eexists; left; reflexivity].
  unfold bind. destruct (manuallyParseResponse_returns this text tr) as [v Hv].
  rewrite Hv. destruct (truthy v) eqn:Hv'; eexists.
  - right. exists v. split; [exact Hv'|reflexivity].
  - left. reflexivity.
Qed.

(** When the thrown value is no [Error] and cannot be converted to a
    string, the [catch] block ends with what the conversion throws. *)
Lemma structuredCatch_unconvertible this response error thrown tr :
  isAbortedError error = false ->
  Agent.messageOf error = Throw thrown ->
  structuredCatch this response error tr = (Throw thrown, tr).
Proof.
  intros Hab Hmsg. unfold Agent.structuredCatch. rewrite Hab, Hmsg. reflexivity.
Qed.

(** In the structured path manual recovery is never attempted: when the
    [catch] block runs, either [response] is still [undefined] or the error
    is the one thrown two lines above, whose message lacks the marker
    [is not valid JSON]. *)
Lemma structured_path_never_recovers this inputMessages rawContent :
  withStructuredOutput this = true ->
  EvManualParse rawContent ∉ (run (invoke this inputMessages)).2.
Proof.
  intros Hs. unfold Agent.invoke, run. rewrite Hs.
  unfold bind, Agent.structuredTry, emit, ret. simpl.
  destruct (Agent.llm_withStructuredOutput _ _ _) as [response|e]; simpl.
  - destruct (truthy (Agent.parsed response)); simpl.
    + intros Hin. apply list_elem_of_singleton in Hin. discriminate Hin.
    + unfold Agent.structuredCatch. simpl.
      destruct response as [p [[c f [t|items]]|]]; simpl;
        intros Hin; apply list_elem_of_singleton in Hin; discriminate Hin.
  - unfold Agent.structuredCatch, bind, lift, throw.
    destruct (isAbortedError e); [|destruct (Agent.messageOf e)]; simpl;
      intros Hin; apply list_elem_of_singleton in Hin; discriminate Hin.
Qed.

(** In the manual path a reply whose text cannot be recovered (the
    recovered value is [undefined] or otherwise falsy) ends [invoke] with
    a [ResponseParseError]. *)
Lemma manual_path_unrecovered this inputMessages reply text v :
  withStructuredOutput this = false ->
  Agent.llm_invoke (Agent.chatLLM this)
    (convertInputMessages (stripImagesFromMessages this inputMessages)
                          (Agent.modelName this)) = Normal reply ->
  content reply = ContentString text ->
  (forall tr, (manuallyParseResponse this text tr).1 = Normal v) ->
  truthy v = false ->
  (run (invoke this inputMessages)).1
  = Throw (JError (ResponseParseError "Could not parse response")).
Proof.
  intros Hs Hreply Hc Hparse Hv. unfold Agent.invoke, run. rewrite Hs.
  unfold bind at 1. unfold tryCatch. unfold bind at 1. unfold emit at 1. simpl.
  unfold bind at 1. unfold lift at 1. rewrite Hreply, Hc.
  unfold bind at 1.
  match goal with
  | |- context [manuallyParseResponse this text ?tr0] =>
      destruct (manuallyParseResponse_returns this text tr0) as [v' Hv'];
      specialize (Hparse tr0); rewrite Hv' in Hparse |- *
  end.
  simpl in Hparse. injection Hparse as ->. rewrite Hv. reflexivity.
Qed.

(** Whatever happens, [invoke] calls the model exactly once: a failure is
    not retried inside this layer. *)
Lemma invoke_calls_model_once this inputMessages :
  length (List.filter isModelCall (run (invoke this inputMessages)).2) = 1%nat.
Proof.
  unfold Agent.invoke, run.
  destruct (withStructuredOutput this).
  - unfold bind, Agent.structuredTry, emit, ret. simpl.
    destruct (Agent.llm_withStructuredOutput _ _ _) as [response|e]; simpl.
    + destruct (truthy (Agent.parsed response)); simpl; [reflexivity|].
      unfold Agent.structuredCatch. simpl.
      destruct response as [p [[c f [t|items]]|]]; reflexivity.
    + unfold Agent.structuredCatch, bind, lift, throw.
      destruct (isAbortedError e); [|destruct (Agent.messageOf e)]; reflexivity.
  - unfold bind at 1. unfold tryCatch. unfold bind at 1. unfold emit at 1. simpl.
    unfold bind at 1. unfold lift at 1.
    destruct (Agent.llm_invoke _ _) as [reply|e]; [|reflexivity].
    destruct (content reply) as [text|items]; [|reflexivity].
    unfold bind at 1.
    destruct (manuallyParseResponse_returns this text
                [EvInvoke (convertInputMessages (stripImagesFromMessages this inputMessages)
                                                (Agent.modelName this))]) as [v Hv].
    simpl in Hv. rewrite Hv. destruct (truthy v); reflexivity.
Qed.

(** C5, at a reply the structured call could not parse: the model answers
    with plain text, [parsed] is [null]. [invoke] ends with a plain [Error]
    ("Failed to invoke ... with structured output"), not with a
    [ResponseParseError], and manual recovery of the raw text was not
    tried. *)
Theorem C5_structured_failure_is_plain_error (inputMessages : list BaseMessage) :
  let this := Samples.agentOf (Samples.unparsedModel "I could not decide.")
                              "openai" "ChatOpenAI" "gpt-4o" in
  Agent.withStructuredOutput Samples.providers this = true
  /\ run (Agent.invoke Samples.providers removeThinkTags extractJsonFromModelOutput
                       convertInputMessages this inputMessages)
     = (Throw (JError (newError
                 ("Failed to invoke gpt-4o with structured output: " +:+ newline
                  +:+ "Could not parse response with structured output"))),
        [EvStructuredInvoke
           (Agent.stripImagesFromMessages Samples.providers this inputMessages)])
  /\ (forall message,
        newError ("Failed to invoke gpt-4o with structured output: " +:+ newline
                  +:+ "Could not parse response with structured output")
        <> ResponseParseError message).
Proof.
  cbv zeta. split; [reflexivity|]. split; [reflexivity|].
  intros message H. discriminate H.
Qed.

End InvocationLayer.

Lemma C3_abort_preempts_forbidden_witness :
  isForbiddenError (JError Samples.abort403) = true
  /\ isAbortedError (JError Samples.abort403) = true
  /\ classify (JError Samples.abort403) = Normal Aborted.
Proof.
  split; [reflexivity|].
  destruct (C3_abort_preempts_forbidden (fun s => s) (fun _ => Throw JUndefined)
              Samples.abort403 eq_refl eq_refl) as (Hab & Hc & _).
  split; [exact Hab | exact Hc].
Defined.


(** ** The boolean coercion of planner output *)

(** C6: a string that is [true] after lower-casing and trimming parses to
    the boolean [true], one that is [false] to [false], booleans pass
    through, and every other string makes [parse] raise the error of the
    transform; nothing is defaulted. *)
Theorem C6_boolean_coercion :
  (forall s, trim (toLowerCase s) = "true" ->
     parse Planner.booleanStringSchema (JStr s) = Parsed (JBool true))
  /\ (forall s, trim (toLowerCase s) = "false" ->
       parse Planner.booleanStringSchema (JStr s) = Parsed (JBool false))
  /\ (forall b, parse Planner.booleanStringSchema (JBool b) = Parsed (JBool b))
  /\ (forall s, trim (toLowerCase s) <> "true" -> trim (toLowerCase s) <> "false" ->
       parse Planner.booleanStringSchema (JStr s)
       = Raised (JError (newError
                   ("Invalid boolean string: " +:+ dquote +:+ s +:+ dquote)))).
Proof.
  split; [|split; [|split]].
  - intros s H. unfold parse, safeParse, Planner.booleanStringSchema. simpl.
    rewrite H. reflexivity.
  - intros s H. unfold parse, safeParse, Planner.booleanStringSchema. simpl.
    rewrite H. reflexivity.
  - intros b. reflexivity.
  - intros s Ht Hf. unfold parse, safeParse, Planner.booleanStringSchema. simpl.
    apply String.eqb_neq in Ht, Hf. rewrite Ht, Hf. reflexivity.
Qed.

Lemma C6_boolean_coercion_witness :
  parse Planner.booleanStringSchema (JStr " true ") = Parsed (JBool true)
  /\ parse Planner.booleanStringSchema (JStr "FALSE") = Parsed (JBool false)
  /\ parse Planner.booleanStringSchema (JStr "maybe")
     = Raised (JError (newError ("Invalid boolean string: " +:+ dquote +:+ "maybe"
                                 +:+ dquote))).
Proof.
  destruct C6_boolean_coercion as (Ht & Hf & _ & Hother).
  split; [apply (Ht " true "); reflexivity|].
  split; [apply (Hf "FALSE"); reflexivity|].
  apply (Hother "maybe"); discriminate.
Defined.

(** The spellings the planner tests try. *)
Example boolean_spellings :
  Forall (fun s => parse Planner.booleanStringSchema (JStr s) = Parsed (JBool true))
         ["true"; "True"; "TRUE"; " true "]
  /\ Forall (fun s => parse Planner.booleanStringSchema (JStr s) = Parsed (JBool false))
            ["false"; "False"; "FALSE"; " false "]
  /\ parse Planner.booleanStringSchema (JNum 1)
     = RaisedZodError
         [InvalidUnion
            [[InvalidType "boolean" "number" [] "Expected boolean, received number"];
             [InvalidType "string" "number" [] "Expected string, received number"]]
            [] "Invalid input"].
Proof. repeat constructor. Qed.

(** ** The action registry *)

Lemma getProp_None {V : Type} (k : string) (fields : list (string * V)) :
  getProp k fields = None <-> k ∉ keys fields.
Proof.
  unfold keys. induction fields as [|[k' v'] rest IH]; simpl.
  - split; [intros _ H; inversion H|reflexivity].
  - destruct (String.eqb_spec k' k) as [->|Hne].
    + split; [discriminate|]. intros H. destruct H. apply list_elem_of_here.
    + rewrite IH, elem_of_cons. split; [|tauto].
      intros H [->|H']; [apply Hne; reflexivity|contradiction].
Qed.

Lemma keys_replaceProp {V : Type} (k : string) (v : V) (fields : list (string * V)) :
  keys (replaceProp k v fields) = keys fields.
Proof.
  unfold keys. induction fields as [|[k' v'] rest IH]; simpl; [reflexivity|].
  destruct (String.eqb_spec k' k) as [->|Hne]; simpl; [reflexivity|].
  rewrite IH. reflexivity.
Qed.

Lemma keys_insertProp {V : Type} (k : string) (v : V) (fields : list (string * V)) :
  keys (insertProp k v fields) ≡ₚ k :: keys fields.
Proof.
  unfold keys. induction fields as [|[k' v'] rest IH]; simpl; [reflexivity|].
  destruct (enumeratedBefore k k'); simpl; [reflexivity|].
  rewrite IH. apply Permutation_swap.
Qed.

(** [obj[k] = v] keeps the keys of the object and adds [k] when it is
    new; where it is added depends on the kind of key. *)
Lemma keys_setProp {V : Type} (k : string) (v : V) (fields : list (string * V)) :
  keys (setProp k v fields)
  ≡ₚ if decide (k ∈ keys fields) then keys fields else k :: keys fields.
Proof.
  unfold setProp. destruct (getProp k fields) as [x|] eqn:Hget.
  - rewrite keys_replaceProp.
    destruct (decide (k ∈ keys fields)) as [_|Hnin]; [reflexivity|].
    apply getProp_None in Hnin. congruence.
  - rewrite keys_insertProp. apply getProp_None in Hget.
    rewrite decide_False by exact Hget. reflexivity.
Qed.

Lemma Forall_setProp {V : Type} (P : string * V -> Prop) k v fields :
  P (k, v) -> Forall P fields -> Forall P (setProp k v fields).
Proof.
  intros Hkv Hall. unfold setProp. destruct (getProp k fields) as [x|].
  - induction Hall as [|[k' v'] rest Hx Hrest IH]; simpl; [constructor|].
    destruct (String.eqb k' k); constructor; assumption.
  - induction Hall as [|[k' v'] rest Hx Hrest IH]; simpl.
    + constructor; [exact Hkv|constructor].
    + destruct (enumeratedBefore k k'); repeat constructor; assumption.
Qed.

(** The field [buildDynamicActionSchema] adds for an action. *)
Lemma decision_field_optional_nullable (d : string) (t : ZodType) :
  isOptional (describe d (optional (nullable t))) = true
  /\ isNullable (describe d (optional (nullable t))) = true.
Proof. split; reflexivity. Qed.

Lemma buildDynamicActionSchema_shape (actions : list Builder.Action) shape0 d0 :
  fold_left
    (fun schema_ action =>
       extend [(Builder.name action,
                describe (Builder.as_description (Builder.schema action))
                  (optional (nullable (Builder.as_schema (Builder.schema action)))))]
              schema_)
    actions (Zod (ZodObject shape0) d0)
  = Zod (ZodObject
           (fold_left
              (fun shape action =>
                 setProp (Builder.name action)
                   (describe (Builder.as_description (Builder.schema action))
                      (optional (nullable (Builder.as_schema (Builder.schema action)))))
                   shape)
              actions shape0)) d0.
Proof.
  revert shape0. induction actions as [|a rest IH]; intros shape0; simpl.
  - reflexivity.
  - apply IH.
Qed.

Lemma decision_shape_invariant (actions : list Builder.Action) shape0 :
  NoDup (keys shape0) ->
  Forall (fun kv => isOptional kv.2 = true /\ isNullable kv.2 = true) shape0 ->
  let shape :=
    fold_left
      (fun shape action =>
         setProp (Builder.name action)
           (describe (Builder.as_description (Builder.schema action))
              (optional (nullable (Builder.as_schema (Builder.schema action)))))
           shape)
      actions shape0 in
  NoDup (keys shape)
  /\ (forall n, n ∈ keys shape <-> n ∈ keys shape0 \/ n ∈ map Builder.name actions)
  /\ Forall (fun kv => isOptional kv.2 = true /\ isNullable kv.2 = true) shape.
Proof.
  revert shape0. induction actions as [|a rest IH]; intros shape0 Hnd Hall; simpl.
  - split; [exact Hnd|]. split; [|exact Hall].
    intros n. split; [tauto|]. intros [H|H]; [exact H|inversion H].
  - match goal with
    | |- context [setProp ?k ?v shape0] =>
        destruct (IH (setProp k v shape0)) as (Hnd' & Hkeys & Hall');
        [ rewrite keys_setProp; destruct (decide (k ∈ keys shape0)) as [Hin|Hnin];
          [exact Hnd|]; apply NoDup_cons; split; [exact Hnin | exact Hnd]
        | apply Forall_setProp; [apply decision_field_optional_nullable | exact Hall]
        | ]
    end.
    split; [exact Hnd'|]. split; [|exact Hall'].
    intros n. rewrite Hkeys, keys_setProp.
    destruct (decide (Builder.name a ∈ keys shape0)) as [Hin|Hnin].
    + rewrite elem_of_cons. split; [tauto|].
      intros [H|[->|H]]; tauto.
    + rewrite !elem_of_cons. tauto.
Qed.

(** C1: for every list of actions, [buildDynamicActionSchema] returns an
    object schema whose field names are pairwise distinct, are exactly the
    names of the actions, and whose fields all accept [undefined]
    (optional) and [null] (nullable). *)
Theorem C1_decision_schema (actions : list Builder.Action) :
  exists shape,
    Builder.buildDynamicActionSchema actions = object shape
    /\ NoDup (keys shape)
    /\ (forall n, n ∈ keys shape <-> n ∈ map Builder.name actions)
    /\ Forall (fun kv => isOptional kv.2 = true /\ isNullable kv.2 = true) shape.
Proof.
  unfold Builder.buildDynamicActionSchema, object.
  rewrite buildDynamicActionSchema_shape.
  eexists. split; [reflexivity|].
  destruct (decision_shape_invariant actions []) as (Hnd & Hkeys & Hall).
  - apply NoDup_nil_2.
  - constructor.
  - split; [exact Hnd|]. split; [|exact Hall].
    intros n. rewrite Hkeys. split; [|tauto].
    intros [H|H]; [inversion H|exact H].
Qed.

(** Two actions of one name share one field, the later schema in it. *)
Example decision_schema_duplicate_name :
  keys (match defOf (Builder.buildDynamicActionSchema
                       [Samples.goToUrl; Samples.scrollToTop; Samples.goToUrl]) with
        | ZodObject shape => shape
        | _ => []
        end)
  = ["go_to_url"; "scroll_to_top"].
Proof. reflexivity. Qed.

Section ActionCall.

Context (zodErrorMessage : list ZodIssue -> string).

Local Abbreviation call := (Builder.call zodErrorMessage).

(** C2, amended: for every action whose schema is not the empty object
    schema and every input for which [safeParse] returns a failure (the
    result with [success: false] that carries the issues), [call] throws
    an [InvalidInputError] whose message is the message of that
    [ZodError], and the handler is not invoked: the trace stays empty. *)
Theorem C2_invalid_input_rejected (a : Builder.Action) (input : JsVal)
        (issues : list ZodIssue) :
  Builder.isEmptySchema (Builder.as_schema (Builder.schema a)) = false ->
  safeParse (Builder.as_schema (Builder.schema a)) input = PInvalid issues ->
  run (call a input)
  = (Throw (JError (Builder.InvalidInputError (zodErrorMessage issues))), [])
  /\ includes (err_message (Builder.InvalidInputError (zodErrorMessage issues)))
              (zodErrorMessage issues) = true.
Proof.
  intros Hne Hfail. unfold Builder.call, run. rewrite Hne, Hfail.
  split; [reflexivity|]. apply includes_refl.
Qed.

(** C9: for every action whose schema is an object schema without fields,
    [call] invokes the handler with the empty object whatever the input
    is, and ends the way the handler does; no [InvalidInputError] is
    made. *)
Theorem C9_empty_schema_ignores_input (a : Builder.Action) (input : JsVal) :
  Builder.isEmptySchema (Builder.as_schema (Builder.schema a)) = true ->
  run (call a input)
  = (Builder.handler a (JObj []), [EvHandler (Builder.name a) (JObj [])]).
Proof.
  intros Hempty. unfold Builder.call, run. rewrite Hempty. reflexivity.
Qed.

End ActionCall.

(** C2, as stated, fails: the schema [z.object({})] of [scroll_to_top]
    rejects the string input, yet [call] runs the handler with [{}] and
    returns its result instead of throwing [InvalidInputError]. *)
Lemma C2_counterexample :
  safeParse (Builder.as_schema (Builder.schema Samples.scrollToTop)) (JStr "top")
  = PInvalid [InvalidType "object" "string" [] "Expected object, received string"]
  /\ run (Builder.call errorMessage Samples.scrollToTop (JStr "top"))
     = (Normal Samples.okResult, [EvHandler "scroll_to_top" (JObj [])])
  /\ ~ (forall (a : Builder.Action) (input : JsVal) (issues : list ZodIssue),
          safeParse (Builder.as_schema (Builder.schema a)) input = PInvalid issues ->
          exists tr,
            run (Builder.call errorMessage a input)
            = (Throw (JError (Builder.InvalidInputError (errorMessage issues))),
               tr)
            /\ forall n v, EvHandler n v ∉ tr).
Proof.
  split; [reflexivity|]. split; [reflexivity|].
  intros H.
  destruct (H Samples.scrollToTop (JStr "top") _ eq_refl) as (tr & Hrun & _).
  vm_compute in Hrun. discriminate Hrun.
Qed.

Lemma C2_invalid_input_rejected_witness :
  run (Builder.call errorMessage Samples.goToUrl (JObj [("url", JNum 7)]))
  = (Throw (JError (Builder.InvalidInputError
                      (errorMessage
                         [InvalidType "string" "number" [PKey "url"]
                            "Expected string, received number"]))), []).
Proof.
  apply (C2_invalid_input_rejected errorMessage Samples.goToUrl
           (JObj [("url", JNum 7)])
           [InvalidType "string" "number" [PKey "url"]
              "Expected string, received number"]).
  - reflexivity.
  - reflexivity.
Defined.

(** The message the rejected input above is reported with. *)
Example errorMessage_text :
  errorMessage [InvalidType "string" "number" [PKey "url"]
                  "Expected string, received number"]
  = join newline
      [ "[";
        "  {";
        "    " +:+ quote "code" +:+ ": " +:+ quote "invalid_type" +:+ ",";
        "    " +:+ quote "expected" +:+ ": " +:+ quote "string" +:+ ",";
        "    " +:+ quote "received" +:+ ": " +:+ quote "number" +:+ ",";
        "    " +:+ quote "path" +:+ ": [";
        "      " +:+ quote "url";
        "    ],";
        "    " +:+ quote "message" +:+ ": " +:+ quote "Expected string, received number";
        "  }";
        "]" ].
Proof. vm_compute. reflexivity. Qed.

(** A transform that throws is no failure result of [safeParse]: its
    exception leaves [safeParse], and [call] with it, as it is. *)
Example call_rethrows_transform_error :
  safeParse (Builder.as_schema (Builder.schema Samples.confirm))
            (JObj [("accepted", JStr "maybe")])
  = PThrown (JError (newError ("Invalid boolean string: " +:+ dquote +:+ "maybe"
                               +:+ dquote)))
  /\ run (Builder.call errorMessage Samples.confirm (JObj [("accepted", JStr "maybe")]))
     = (Throw (JError (newError ("Invalid boolean string: " +:+ dquote +:+ "maybe"
                                 +:+ dquote))), []).
Proof. split; reflexivity. Qed.

Lemma C9_empty_schema_ignores_input_witness :
  run (Builder.call errorMessage Samples.scrollToTop (JNum 3))
  = (Normal Samples.okResult, [EvHandler "scroll_to_top" (JObj [])]).
Proof.
  apply (C9_empty_schema_ignores_input errorMessage Samples.scrollToTop (JNum 3)).
  reflexivity.
Defined.

(** ** Vision gating *)

Ltac split_condition b :=
  lazymatch b with
  | (?x && _)%bool => split_condition x
  | (?x || _)%bool => split_condition x
  | _ => destruct b
  end.

Ltac vision_cases :=
  repeat (cbn [andb orb];
          match goal with
          | |- _ -> false = false => intros _; reflexivity
          | |- true = false -> _ => let H := fresh in intros H; discriminate H
          | |- context [if ?b then _ else _] => split_condition b
          end).

(** Only a matched pattern of the rule table makes [supportsVision]
    answer [true]. *)
Lemma supportsVision_false providers this :
  VisionRules.matchesVisionPattern providers this = false ->
  Agent.supportsVision providers this = false.
Proof.
  unfold VisionRules.matchesVisionPattern, Agent.supportsVision.
  cbn [existsb forallb VisionRules.visionPatterns VisionRules.inFamily].
  vision_cases.
Qed.

(** C8: when the provider and model name match no vision-support pattern
    of the rule table, [supportsVision] is [false], and
    [stripImagesFromMessages] then turns every message with array content
    into a message of the same class whose content is the text of its
    [text] items joined by line feeds, leaves string contents alone, and
    so returns no array content at all. *)
Theorem C8_unknown_model_has_no_vision
        (providers : Agent.ProviderTypeEnum) (this : Agent.BaseAgent)
        (messages : list BaseMessage) :
  VisionRules.matchesVisionPattern providers this = false ->
  Agent.supportsVision providers this = false
  /\ Forall2
       (fun before after =>
          msg_class after = msg_class before
          /\ msg_fields after = msg_fields before
          /\ match content before with
             | ContentArray items =>
                 content after
                 = ContentString
                     (join newline
                        ((fun item => default EmptyString (item_text item))
                           <$> filter (fun item => item_type item = "text") items))
             | ContentString text => content after = ContentString text
             end)
       messages (Agent.stripImagesFromMessages providers this messages)
  /\ Forall (fun after => exists text, content after = ContentString text)
            (Agent.stripImagesFromMessages providers this messages).
Proof.
  intros Hno. pose proof (supportsVision_false _ _ Hno) as Hv.
  split; [exact Hv|].
  unfold Agent.stripImagesFromMessages. rewrite Hv.
  split.
  - induction messages as [|m rest IH]; simpl; constructor; [|exact IH].
    unfold Agent.stripMessage. destruct m as [c f [text|items]]; simpl; auto.
  - induction messages as [|m rest IH]; simpl; constructor; [|exact IH].
    unfold Agent.stripMessage. destruct m as [c f [text|items]]; simpl; eauto.
Qed.

Lemma C8_unknown_model_has_no_vision_witness :
  Agent.supportsVision Samples.providers
    (Samples.agentOf (Samples.unparsedModel "ok") "ollama" "ChatOllama" "llava") = false
  /\ Agent.stripImagesFromMessages Samples.providers
       (Samples.agentOf (Samples.unparsedModel "ok") "ollama" "ChatOllama" "llava")
       [Samples.screenshotMessage]
     = [ {| msg_class := "HumanMessage"; msg_fields := [];
            content := ContentString ("Current page:" +:+ newline +:+ "What next?") |} ].
Proof.
  destruct (C8_unknown_model_has_no_vision Samples.providers
              (Samples.agentOf (Samples.unparsedModel "ok") "ollama" "ChatOllama" "llava")
              [Samples.screenshotMessage] eq_refl) as (Hv & _ & _).
  split; [exact Hv|reflexivity].
Defined.

(** ** The memory store *)

Section SortByKey.

Context {A : Type} (key : A -> Z).

Local Abbreviation newestFirst := (fun a b : A => (key b - key a)%Z).

Lemma insertSorted_perm (x : A) (l : list A) :
  Memory.insertSorted newestFirst x l ≡ₚ x :: l.
Proof.
  induction l as [|y rest IH]; simpl; [reflexivity|].
  destruct (key y - key x <=? 0)%Z; [reflexivity|].
  rewrite IH. apply Permutation_swap.
Qed.

Lemma sort_perm (l : list A) : Memory.sort newestFirst l ≡ₚ l.
Proof.
  induction l as [|x rest IH]; simpl; [reflexivity|].
  rewrite insertSorted_perm, IH. reflexivity.
Qed.

Lemma insertSorted_sorted (x : A) (l : list A) :
  StronglySorted (fun a b => (key b <= key a)%Z) l ->
  StronglySorted (fun a b => (key b <= key a)%Z) (Memory.insertSorted newestFirst x l).
Proof.
  induction 1 as [|y rest Hrest IH Hy]; simpl.
  - constructor; constructor.
  - destruct (Z.leb_spec (key y - key x) 0) as [Hle|Hgt].
    + constructor; [constructor; assumption|].
      constructor; [lia|].
      eapply Forall_impl; [exact Hy|]. simpl. intros z Hz. lia.
    + constructor; [exact IH|].
      rewrite insertSorted_perm. constructor; [lia|exact Hy].
Qed.

Lemma sort_sorted (l : list A) :
  StronglySorted (fun a b => (key b <= key a)%Z) (Memory.sort newestFirst l).
Proof.
  induction l as [|x rest IH]; simpl; [constructor|].
  apply insertSorted_sorted, IH.
Qed.

(** In a list sorted newest first, nothing behind a cut is newer than
    anything before it. *)
Lemma sorted_take_drop (l : list A) (n : nat) (x y : A) :
  StronglySorted (fun a b => (key b <= key a)%Z) l ->
  x ∈ take n l -> y ∈ drop n l -> (key y <= key x)%Z.
Proof.
  intros Hs. revert n. induction Hs as [|z rest Hrest IH Hz]; intros n Hx Hy.
  - destruct n; inversion Hx.
  - destruct n as [|n]; simpl in Hx, Hy; [inversion Hx|].
    apply elem_of_cons in Hx as [->|Hx].
    + rewrite Forall_forall in Hz. apply Hz.
      rewrite <- (take_drop n rest).
      apply elem_of_app. right. exact Hy.
    + exact (IH n Hx Hy).
Qed.

(** The limit step shared by [addPattern] and [setPreference]: the result
    fits the limit, and what it leaves out is no newer than what it
    keeps. *)
Lemma enforce_limit (limit : Z) (l : list A) :
  (0 <= limit)%Z ->
  let kept := if (Z.of_nat (length l) >? limit)%Z
              then Memory.slice0 limit (Memory.sort newestFirst l)
              else l in
  (Z.of_nat (length kept) <= limit)%Z
  /\ exists dropped,
       l ≡ₚ kept ++ dropped
       /\ forall x y, x ∈ kept -> y ∈ dropped -> (key y <= key x)%Z.
Proof.
  intros Hlimit. simpl.
  destruct (Z.gtb_spec (Z.of_nat (length l)) limit) as [Hgt|Hle].
  - unfold Memory.slice0.
    destruct (Z.ltb_spec limit 0) as [Hneg|_]; [lia|].
    assert (Hlen : length (Memory.sort newestFirst l) = length l)
      by (apply Permutation_length, sort_perm).
    rewrite Hlen.
    replace (Z.to_nat (Z.min limit (Z.of_nat (length l)))) with (Z.to_nat limit) by lia.
    split.
    + rewrite length_take. lia.
    + exists (drop (Z.to_nat limit) (Memory.sort newestFirst l)). split.
      * rewrite take_drop. symmetry. apply sort_perm.
      * intros x y Hx Hy. eapply sorted_take_drop; [apply sort_sorted|exact Hx|exact Hy].
  - split; [exact Hle|]. exists []. split.
    + rewrite app_nil_r. reflexivity.
    + intros x y _ Hy. inversion Hy.
Qed.

(** The limit step removes the excess and no more: a list within the
    limit is kept as it is; a longer one is cut to exactly [limit]
    entries, in the order newest first. *)
Lemma enforce_limit_exact (limit : Z) (l : list A) :
  (0 <= limit)%Z ->
  let kept := if (Z.of_nat (length l) >? limit)%Z
              then Memory.slice0 limit (Memory.sort newestFirst l)
              else l in
  Z.of_nat (length kept) = Z.min limit (Z.of_nat (length l))
  /\ ((Z.of_nat (length l) <= limit)%Z -> kept = l)
  /\ ((limit < Z.of_nat (length l))%Z ->
      StronglySorted (fun a b => (key b <= key a)%Z) kept).
Proof.
  intros Hlimit. simpl.
  destruct (Z.gtb_spec (Z.of_nat (length l)) limit) as [Hgt|Hle].
  - unfold Memory.slice0.
    destruct (Z.ltb_spec limit 0) as [Hneg|_]; [lia|].
    assert (Hlen : length (Memory.sort newestFirst l) = length l)
      by (apply Permutation_length, sort_perm).
    rewrite Hlen.
    replace (Z.to_nat (Z.min limit (Z.of_nat (length l)))) with (Z.to_nat limit) by lia.
    split; [rewrite length_take; lia|]. split; [lia|].
    intros _. apply (StronglySorted_app_1_l _ _ (drop (Z.to_nat limit)
                                                   (Memory.sort newestFirst l))).
    rewrite take_drop. apply sort_sorted.
  - split; [lia|]. split; [reflexivity|]. lia.
Qed.

End SortByKey.

(** The stores before and after an eviction, on the sample store: the
    pattern used longest ago goes, the new preference replaces the old. *)
Example addPattern_evicts_oldest :
  Memory.id <$> Memory.patterns
                  (Memory.addPattern "p3" 40 41 (Samples.patternInput "c.example")
                                     Samples.fullMemory)
  = ["p3"; "p2"]
  /\ Memory.value <$> Memory.preferences
                        (Memory.setPreference 9 (Samples.preferenceInput "voice" "on")
                                              Samples.fullMemory)
     = ["on"]
  /\ Memory.successCount <$> Memory.patterns
                               (Memory.addPattern "p3" 40 41
                                  (Samples.patternInput "a.example") Samples.fullMemory)
     = [2%Z; 1%Z].
Proof. repeat split; reflexivity. Qed.

(** C10: in a store whose patterns and preferences are within the limits
    of its settings, [addPattern] and [setPreference] leave the settings
    alone and both lists within their limits. When [addPattern] finds the
    pattern or [setPreference] the key, that one entry is updated in place
    and every other entry stays where it is. Otherwise the new entry joins
    the list; the excess is removed and no more: the result has as many
    entries as the limit allows of the candidates, is the candidate list
    itself when that fits, and else is ordered newest first; every
    candidate is either kept or left out, and no entry left out was used
    (updated) more recently than any entry kept. *)
Theorem C10_memory_bounds_preserved
        (uuid : string) (now1 now2 now : Z) (pattern : Memory.PatternInput)
        (preference : Memory.PreferenceInput) (memory : Memory.AgentMemory) :
  (Z.of_nat (length (Memory.patterns memory))
   <= Memory.maxPatterns (Memory.settingsOf memory))%Z ->
  (Z.of_nat (length (Memory.preferences memory))
   <= Memory.maxPreferences (Memory.settingsOf memory))%Z ->
  let added := Memory.addPattern uuid now1 now2 pattern memory in
  let updated := Memory.setPreference now preference memory in
  (Memory.settings added = Memory.settings memory
   /\ (Z.of_nat (length (Memory.patterns added))
       <= Memory.maxPatterns (Memory.settingsOf memory))%Z
   /\ (Z.of_nat (length (Memory.preferences added))
       <= Memory.maxPreferences (Memory.settingsOf memory))%Z)
  /\ (Memory.settings updated = Memory.settings memory
      /\ (Z.of_nat (length (Memory.patterns updated))
          <= Memory.maxPatterns (Memory.settingsOf memory))%Z
      /\ (Z.of_nat (length (Memory.preferences updated))
          <= Memory.maxPreferences (Memory.settingsOf memory))%Z)
  /\ Memory.preferences added = Memory.preferences memory
  /\ Memory.patterns updated = Memory.patterns memory
  /\ match list_find (Memory.samePattern pattern) (Memory.patterns memory) with
     | Some (i, p) =>
         length (Memory.patterns added) = length (Memory.patterns memory)
         /\ Memory.patterns added !! i = Some (Memory.markUsed now1 p)
         /\ forall j, j <> i ->
              Memory.patterns added !! j = Memory.patterns memory !! j
     | None =>
         let candidates :=
           Memory.patterns memory ++ [Memory.newPatternOf uuid now1 now2 pattern] in
         Z.of_nat (length (Memory.patterns added))
         = Z.min (Memory.maxPatterns (Memory.settingsOf memory))
                 (Z.of_nat (length candidates))
         /\ ((Z.of_nat (length candidates)
              <= Memory.maxPatterns (Memory.settingsOf memory))%Z ->
             Memory.patterns added = candidates)
         /\ ((Memory.maxPatterns (Memory.settingsOf memory)
              < Z.of_nat (length candidates))%Z ->
             StronglySorted (fun a b => (Memory.lastUsed b <= Memory.lastUsed a)%Z)
                            (Memory.patterns added))
         /\ exists dropped,
              candidates ≡ₚ Memory.patterns added ++ dropped
              /\ forall kept gone,
                  kept ∈ Memory.patterns added -> gone ∈ dropped ->
                  (Memory.lastUsed gone <= Memory.lastUsed kept)%Z
     end
  /\ match list_find (fun p => Memory.key p = Memory.in_key preference)
                     (Memory.preferences memory) with
     | Some (i, _) =>
         length (Memory.preferences updated) = length (Memory.preferences memory)
         /\ Memory.preferences updated !! i
            = Some (Memory.newPreferenceOf now preference)
         /\ forall j, j <> i ->
              Memory.preferences updated !! j = Memory.preferences memory !! j
     | None =>
         let candidates :=
           Memory.preferences memory ++ [Memory.newPreferenceOf now preference] in
         Z.of_nat (length (Memory.preferences updated))
         = Z.min (Memory.maxPreferences (Memory.settingsOf memory))
                 (Z.of_nat (length candidates))
         /\ ((Z.of_nat (length candidates)
              <= Memory.maxPreferences (Memory.settingsOf memory))%Z ->
             Memory.preferences updated = candidates)
         /\ ((Memory.maxPreferences (Memory.settingsOf memory)
              < Z.of_nat (length candidates))%Z ->
             StronglySorted
               (fun a b => (Memory.lastUpdated b <= Memory.lastUpdated a)%Z)
               (Memory.preferences updated))
         /\ exists dropped,
              candidates ≡ₚ Memory.preferences updated ++ dropped
              /\ forall kept gone,
                  kept ∈ Memory.preferences updated -> gone ∈ dropped ->
                  (Memory.lastUpdated gone <= Memory.lastUpdated kept)%Z
     end.
Proof.
  intros Hpat Hpref. cbv zeta.
  assert (HmaxP : (0 <= Memory.maxPatterns (Memory.settingsOf memory))%Z) by lia.
  assert (HmaxQ : (0 <= Memory.maxPreferences (Memory.settingsOf memory))%Z) by lia.
  unfold Memory.addPattern, Memory.setPreference. cbv zeta.
  pose proof (enforce_limit Memory.lastUsed _
                (Memory.patterns memory ++ [Memory.newPatternOf uuid now1 now2 pattern])
                HmaxP) as [HboundP HrecentP].
  pose proof (enforce_limit Memory.lastUpdated _
                (Memory.preferences memory ++ [Memory.newPreferenceOf now preference])
                HmaxQ) as [HboundQ HrecentQ].
  pose proof (enforce_limit_exact Memory.lastUsed _
                (Memory.patterns memory ++ [Memory.newPatternOf uuid now1 now2 pattern])
                HmaxP) as (HlenP & HsameP & HsortedP).
  pose proof (enforce_limit_exact Memory.lastUpdated _
                (Memory.preferences memory ++ [Memory.newPreferenceOf now preference])
                HmaxQ) as (HlenQ & HsameQ & HsortedQ).
  cbv zeta in HboundP, HrecentP, HboundQ, HrecentQ, HlenP, HsameP, HsortedP,
              HlenQ, HsameQ, HsortedQ.
  destruct (list_find (Memory.samePattern pattern) (Memory.patterns memory))
    as [[i p]|] eqn:HfindP;
    destruct (list_find (fun p => Memory.key p = Memory.in_key preference)
                        (Memory.preferences memory)) as [[j q]|] eqn:HfindQ;
    cbn [Memory.settings Memory.patterns Memory.preferences];
    rewrite ?length_alter, ?length_insert;
    repeat match goal with
           | |- context [(Z.of_nat (length (Memory.preferences memory)) >? ?m)%Z] =>
               destruct (Z.gtb_spec (Z.of_nat (length (Memory.preferences memory))) m);
               [lia|]
           end;
    rewrite ?length_insert;
    repeat match goal with
           | |- _ /\ _ => split
           end;
    try assumption; try reflexivity;
    try (apply list_find_Some in HfindP as (Hi & _ & _);
         first [ rewrite list_lookup_alter_eq, Hi; reflexivity
               | intros k Hk; apply list_lookup_alter_ne; congruence ]);
    try (apply list_find_Some in HfindQ as (Hj & _ & _);
         first [ apply list_lookup_insert_eq; eapply lookup_lt_Some, Hj
               | intros k Hk; apply list_lookup_insert_ne; congruence ]).
Qed.

Lemma C10_memory_bounds_preserved_witness :
  Memory.id <$> Memory.patterns
                  (Memory.addPattern "p3" 40 41 (Samples.patternInput "c.example")
                                     Samples.fullMemory)
  = ["p3"; "p2"]
  /\ (Z.of_nat (length (Memory.patterns
                          (Memory.addPattern "p3" 40 41 (Samples.patternInput "c.example")
                                             Samples.fullMemory))) = 2)%Z
  /\ (Z.of_nat (length (Memory.preferences
                          (Memory.setPreference 9 (Samples.preferenceInput "voice" "on")
                                                Samples.fullMemory))) = 1)%Z.
Proof.
  destruct (C10_memory_bounds_preserved "p3" 40 41 9
              (Samples.patternInput "c.example")
              (Samples.preferenceInput "voice" "on")
              Samples.fullMemory) as (_ & _ & _ & _ & Hp & Hq).
  - simpl. lia.
  - simpl. lia.
  - split; [reflexivity|].
    destruct Hp as (Hp & _). destruct Hq as (Hq & _).
    split; [exact Hp | exact Hq].
Defined.

(** * Further properties of the sources *)

(** ** More on strings *)

Lemma prefix_app (n a b : string) :
  String.prefix n a = true -> String.prefix n (a +:+ b) = true.
Proof.
  revert a. induction n as [|c n IH]; intros a H;
    [destruct (a +:+ b); reflexivity|].
  destruct a as [|d a]; simpl in *; [discriminate H|].
  destruct (Ascii.ascii_dec c d); [apply IH, H | discriminate H].
Qed.

Lemma append_empty_r (s : string) : s +:+ EmptyString = s.
Proof.
  induction s as [|c s IH]; [reflexivity|].
  change (String c s +:+ EmptyString) with (String c (s +:+ EmptyString)).
  rewrite IH. reflexivity.
Qed.

Lemma includes_empty (hay : string) : includes hay EmptyString = true.
Proof. destruct hay; reflexivity. Qed.

Lemma includes_app_r (a b n : string) :
  includes b n = true -> includes (a +:+ b) n = true.
Proof.
  intros H. induction a as [|c a IH]; [exact H|].
  change (String c a +:+ b) with (String c (a +:+ b)). cbn [includes].
  rewrite IH. apply orb_true_r.
Qed.

Lemma includes_app_l (a b n : string) :
  includes a n = true -> includes (a +:+ b) n = true.
Proof.
  induction a as [|c a IH]; intros H.
  - simpl in H. destruct n; [apply includes_empty | discriminate H].
  - cbn [includes] in H. apply orb_true_iff in H as [H|H].
    + change (String c a +:+ b) with (String c (a +:+ b)). cbn [includes].
      change (String c (a +:+ b)) with (String c a +:+ b).
      rewrite (prefix_app _ _ b H). reflexivity.
    + change (String c a +:+ b) with (String c (a +:+ b)). cbn [includes].
      rewrite (IH H). apply orb_true_r.
Qed.

Lemma lowerUnit_idempotent (c : ascii) :
  lowerUnit (lowerUnit c) = lowerUnit c.
Proof. destruct c as [[] [] [] [] [] [] [] []]; reflexivity. Qed.

Lemma toLowerCase_idempotent (s : string) :
  toLowerCase (toLowerCase s) = toLowerCase s.
Proof.
  induction s as [|c s IH]; simpl; [reflexivity|].
  rewrite lowerUnit_idempotent, IH. reflexivity.
Qed.

(** ** More on the error taxonomy *)

(** X7: [isExtensionConflictError] reads only the lower-cased text: an
    [Error], the same [Error] with its message lower-cased, and the bare
    message string thrown instead of an [Error] get one verdict. *)
Theorem conflict_verdict_ignores_case_and_wrapper (e : ErrorObj) :
  isExtensionConflictError (JError e)
  = isExtensionConflictError
      (JError {| err_name := err_name e;
                 err_message := toLowerCase (err_message e);
                 err_status := err_status e |})
  /\ isExtensionConflictError (JError e) = isExtensionConflictError (JStr (err_message e)).
Proof.
  unfold isExtensionConflictError, messageOrString. simpl.
  rewrite toLowerCase_idempotent. split; reflexivity.
Qed.

(** ** More on the model invocation layer *)

(** X6: [setToolCallingMethod] never hands back ['auto'] or the empty
    string: a result is the caller's own method, or ['function_calling']
    chosen for ['auto']. *)
Theorem setToolCallingMethod_result (this : Agent.BaseAgent)
        (toolCallingMethod : option string) (result : string) :
  Agent.setToolCallingMethod this toolCallingMethod = Some result ->
  result <> "auto" /\ result <> EmptyString
  /\ (toolCallingMethod = Some result
      \/ (toolCallingMethod = Some "auto" /\ result = "function_calling")).
Proof.
  unfold Agent.setToolCallingMethod.
  destruct (decide (toolCallingMethod = Some "auto")) as [->|Hne].
  - destruct (decide _); [discriminate|].
    destruct (decide _); [|discriminate].
    intros [= <-]. split; [discriminate|]. split; [discriminate|]. right. split; reflexivity.
  - destruct toolCallingMethod as [method|]; [|discriminate].
    destruct (String.eqb_spec method EmptyString) as [->|Hnonempty]; [discriminate|].
    intros [= <-]. split; [congruence|]. split; [exact Hnonempty|]. left. reflexivity.
Qed.

Lemma setToolCallingMethod_result_witness :
  "function_calling" <> "auto" /\ "function_calling" <> EmptyString
  /\ (Some "auto" = Some "function_calling"
      \/ (Some "auto" = Some "auto" /\ "function_calling" = "function_calling")).
Proof.
  apply (setToolCallingMethod_result
           (Samples.agentOf (Samples.unparsedModel "ok") "groq" "ChatGroq" "llama3")
           (Some "auto") "function_calling").
  reflexivity.
Defined.

Section InvocationLayerMore.

Context (providers : Agent.ProviderTypeEnum)
        (removeThinkTags : string -> string)
        (extractJsonFromModelOutput : string -> Completion JsVal)
        (convertInputMessages : list BaseMessage -> string -> list BaseMessage).

Local Abbreviation invoke :=
  (Agent.invoke providers removeThinkTags extractJsonFromModelOutput convertInputMessages).
Local Abbreviation structuredCatch :=
  (Agent.structuredCatch removeThinkTags extractJsonFromModelOutput).
Local Abbreviation manuallyParseResponse :=
  (Agent.manuallyParseResponse removeThinkTags extractJsonFromModelOutput).
Local Abbreviation stripImagesFromMessages := (Agent.stripImagesFromMessages providers).
Local Abbreviation withStructuredOutput := (Agent.withStructuredOutput providers).
Local Abbreviation supportsVision := (Agent.supportsVision providers).

(** A truthy result of [manuallyParseResponse] is what the output schema
    made of the object extracted from the cleaned text. *)
Lemma manuallyParseResponse_sound this text tr v tr' :
  manuallyParseResponse this text tr = (Normal v, tr') ->
  truthy v = true ->
  exists data,
    extractJsonFromModelOutput (removeThinkTags text) = Normal data
    /\ truthy data = true
    /\ parse (Agent.modelOutputSchema this) data = Parsed v.
Proof.
  unfold Agent.manuallyParseResponse, bind, emit, tryCatch, lift, ret.
  destruct (extractJsonFromModelOutput (removeThinkTags text)) as [data|e]; simpl.
  - unfold Agent.validateModelOutput.
    destruct (truthy data) eqn:Hd; simpl.
    + destruct (parse (Agent.modelOutputSchema this) data) eqn:Hp; simpl;
        intros [= <- <-] Hv; try discriminate Hv.
      exists data. auto.
    + intros [= <- <-] Hv. discriminate Hv.
  - intros [= <- <-] Hv. discriminate Hv.
Qed.

(** X1: a value [invoke] returns is truthy; [undefined], [null], [false],
    zero and the empty string never come back as a decision. *)
Theorem invoke_returns_truthy this inputMessages v tr :
  run (invoke this inputMessages) = (Normal v, tr) -> truthy v = true.
Proof.
  unfold Agent.invoke, run.
  destruct (withStructuredOutput this).
  - unfold bind, Agent.structuredTry, emit, ret. simpl.
    destruct (Agent.llm_withStructuredOutput _ _ _) as [response|e]; simpl.
    + destruct (truthy (Agent.parsed response)) eqn:Ht; simpl.
      * intros [= <- <-]. exact Ht.
      * match goal with
        | |- structuredCatch this ?r ?err ?t = _ -> _ =>
            destruct (structuredCatch_outcomes removeThinkTags
                        extractJsonFromModelOutput this r err _ t eq_refl eq_refl)
              as [tr1 [H|(v1 & Hv1 & H)]]; rewrite H
        end.
        -- discriminate.
        -- intros [= <- <-]. exact Hv1.
    + destruct (isAbortedError e) eqn:Hab.
      * rewrite (structuredCatch_aborted removeThinkTags extractJsonFromModelOutput
                   this None e _ Hab). discriminate.
      * destruct (Agent.messageOf e) as [message|thrown] eqn:Hmsg.
        -- match goal with
           | |- structuredCatch this ?r ?err ?t = _ -> _ =>
               destruct (structuredCatch_outcomes removeThinkTags
                           extractJsonFromModelOutput this r err message t Hab Hmsg)
                 as [tr1 [H|(v1 & Hv1 & H)]]; rewrite H
           end.
           ++ discriminate.
           ++ intros [= <- <-]. exact Hv1.
        -- rewrite (structuredCatch_unconvertible removeThinkTags
                      extractJsonFromModelOutput this None e thrown _ Hab Hmsg).
           discriminate.
  - unfold bind at 1. unfold tryCatch. unfold bind at 1. unfold emit at 1. simpl.
    unfold bind at 1. unfold lift at 1.
    destruct (Agent.llm_invoke _ _) as [reply|e]; [|discriminate].
    destruct (content reply) as [text|items]; [|discriminate].
    unfold bind at 1.
    match goal with
    | |- context [manuallyParseResponse this text ?tr0] =>
        destruct (manuallyParseResponse_returns removeThinkTags
                    extractJsonFromModelOutput this text tr0) as [v1 Hv1];
        rewrite Hv1
    end.
    destruct (truthy v1) eqn:Ht; simpl; [|discriminate].
    intros [= <- <-]. exact Ht.
Qed.

(** X2: without structured output, a value [invoke] returns was extracted
    from the text the model replied with and accepted by the output
    schema; the run consisted of one model call and one recovery. *)
Theorem manual_path_returns_validated this inputMessages v tr :
  withStructuredOutput this = false ->
  run (invoke this inputMessages) = (Normal v, tr) ->
  exists reply text data,
    Agent.llm_invoke (Agent.chatLLM this)
      (convertInputMessages (stripImagesFromMessages this inputMessages)
                            (Agent.modelName this)) = Normal reply
    /\ content reply = ContentString text
    /\ extractJsonFromModelOutput (removeThinkTags text) = Normal data
    /\ parse (Agent.modelOutputSchema this) data = Parsed v
    /\ tr = [EvInvoke (convertInputMessages (stripImagesFromMessages this inputMessages)
                                            (Agent.modelName this));
             EvManualParse text].
Proof.
  intros Hs. unfold Agent.invoke, run. rewrite Hs.
  unfold bind at 1. unfold tryCatch. unfold bind at 1. unfold emit at 1. simpl.
  unfold bind at 1. unfold lift at 1.
  destruct (Agent.llm_invoke _ _) as [reply|e] eqn:Hreply; [|discriminate].
  destruct (content reply) as [text|items] eqn:Hc; [|discriminate].
  unfold bind at 1.
  match goal with
  | |- context [manuallyParseResponse this text ?tr0] =>
      destruct (manuallyParseResponse_returns removeThinkTags
                  extractJsonFromModelOutput this text tr0) as [v1 Hv1];
      rewrite Hv1
  end.
  destruct (truthy v1) eqn:Ht; simpl; [|discriminate].
  intros [= <- <-].
  destruct (manuallyParseResponse_sound _ _ _ _ _ Hv1 Ht) as (data & Hd & _ & Hp).
  exists reply, text, data. auto.
Qed.

(** X3: when the structured call is rejected with an error that is not an
    abort, [invoke] throws a fresh plain [Error] without a status; its
    message still holds every text the original message held
    ([error.message] of an [Error], the string conversion of another
    value), so a message that marks a 403 is still seen by
    [isForbiddenError]. Only for a value that is no [Error] and that
    [String] cannot convert does [invoke] end otherwise: with what the
    conversion throws. *)
Theorem structured_failure_keeps_message this inputMessages error :
  withStructuredOutput this = true ->
  Agent.llm_withStructuredOutput (Agent.chatLLM this) (Agent.modelOutputSchema this)
    (stripImagesFromMessages this inputMessages) = Throw error ->
  isAbortedError error = false ->
  match Agent.messageOf error with
  | Normal message =>
      exists wrapped,
        run (invoke this inputMessages)
        = (Throw (JError wrapped),
           [EvStructuredInvoke (stripImagesFromMessages this inputMessages)])
        /\ err_name wrapped = "Error"
        /\ err_status wrapped = None
        /\ (forall needle, includes message needle = true ->
                           includes (err_message wrapped) needle = true)
        /\ (includes message " 403" = true ->
            isForbiddenError (JError wrapped) = true)
  | Throw thrown =>
      instanceofError error = false
      /\ run (invoke this inputMessages)
         = (Throw thrown,
            [EvStructuredInvoke (stripImagesFromMessages this inputMessages)])
  end.
Proof.
  intros Hs Hcall Hab. unfold Agent.invoke, run. rewrite Hs.
  unfold bind, Agent.structuredTry, emit, ret. simpl. rewrite Hcall. simpl.
  unfold Agent.structuredCatch. rewrite Hab.
  destruct (Agent.messageOf error) as [message|thrown] eqn:Hmsg;
    unfold bind, lift, throw.
  - set (msg := "Failed to invoke " +:+ Agent.modelName this
                +:+ " with structured output: " +:+ newline
                +:+ message).
    assert (Hkeep : forall needle,
               includes message needle = true ->
               includes msg needle = true).
    { intros needle H. unfold msg. do 4 apply includes_app_r. exact H. }
    exists (newError msg).
    split; [reflexivity|]. split; [reflexivity|]. split; [reflexivity|].
    split; [exact Hkeep|].
    intros H403. unfold isForbiddenError, newError, statusIs.
    cbn [err_message err_status]. rewrite (Hkeep _ H403). reflexivity.
  - split; [|reflexivity].
    destruct error; try reflexivity. discriminate Hmsg.
Qed.

(** Without vision support no message keeps an array content. *)
Lemma stripped_contents_are_text this messages :
  supportsVision this = false ->
  Forall (fun m => exists text, content m = ContentString text)
         (stripImagesFromMessages this messages).
Proof.
  intros Hv. unfold Agent.stripImagesFromMessages. rewrite Hv.
  induction messages as [|m rest IH]; simpl; constructor; [|exact IH].
  unfold Agent.stripMessage. destruct m as [c f [text|items]]; simpl; eauto.
Qed.

(** X4: the first thing [invoke] does is one call of the model, on the
    processed messages (through [convertInputMessages] in the manual
    path); for a model without vision support none of them has array
    content, so no image is sent. *)
Theorem model_call_gets_processed_messages this inputMessages :
  exists rest,
    (run (invoke this inputMessages)).2
    = (if withStructuredOutput this
       then EvStructuredInvoke (stripImagesFromMessages this inputMessages)
       else EvInvoke (convertInputMessages (stripImagesFromMessages this inputMessages)
                                           (Agent.modelName this)))
      :: rest
    /\ Forall (fun ev => isModelCall ev = false) rest
    /\ (supportsVision this = false ->
        Forall (fun m => exists text, content m = ContentString text)
               (stripImagesFromMessages this inputMessages)).
Proof.
  unfold Agent.invoke, run.
  destruct (withStructuredOutput this).
  - unfold bind, Agent.structuredTry, emit, ret. simpl.
    destruct (Agent.llm_withStructuredOutput _ _ _) as [response|e]; simpl.
    + destruct (truthy (Agent.parsed response)); simpl.
      * exists []. split; [reflexivity|]. split; [constructor|].
        apply stripped_contents_are_text.
      * unfold Agent.structuredCatch. simpl.
        destruct response as [p [[c f [t|items]]|]]; simpl;
          (exists []; split; [reflexivity|]; split; [constructor|];
           apply stripped_contents_are_text).
    + unfold Agent.structuredCatch, bind, lift, throw.
      destruct (isAbortedError e); [|destruct (Agent.messageOf e)]; simpl;
        (exists []; split; [reflexivity|]; split; [constructor|];
         apply stripped_contents_are_text).
  - unfold bind at 1. unfold tryCatch. unfold bind at 1. unfold emit at 1. simpl.
    unfold bind at 1. unfold lift at 1.
    destruct (Agent.llm_invoke _ _) as [reply|e];
      [|exists []; split; [reflexivity|]; split; [constructor|];
        apply stripped_contents_are_text].
    destruct (content reply) as [text|items];
      [|exists []; split; [reflexivity|]; split; [constructor|];
        apply stripped_contents_are_text].
    unfold bind at 1.
    match goal with
    | |- context [manuallyParseResponse this text ?tr0] =>
        destruct (manuallyParseResponse_returns removeThinkTags
                    extractJsonFromModelOutput this text tr0) as [v1 Hv1];
        rewrite Hv1
    end.
    destruct (truthy v1); simpl;
      (exists [EvManualParse text]; split; [reflexivity|];
       split; [repeat constructor|]; apply stripped_contents_are_text).
Qed.

(** X5: [stripImagesFromMessages] keeps the number of messages and their
    classes, changes nothing when every content is already a string, and
    changes nothing more when applied a second time. *)
Theorem stripImagesFromMessages_stable this messages :
  length (stripImagesFromMessages this messages) = length messages
  /\ msg_class <$> stripImagesFromMessages this messages = msg_class <$> messages
  /\ stripImagesFromMessages this (stripImagesFromMessages this messages)
     = stripImagesFromMessages this messages
  /\ (Forall (fun m => exists text, content m = ContentString text) messages ->
      stripImagesFromMessages this messages = messages).
Proof.
  unfold Agent.stripImagesFromMessages.
  destruct (supportsVision this); [repeat split; reflexivity|].
  split; [apply length_map|]. split; [|split].
  - induction messages as [|m rest IH]; simpl; [reflexivity|]. f_equal; [|exact IH].
    unfold Agent.stripMessage. destruct (content m); reflexivity.
  - induction messages as [|m rest IH]; simpl; [reflexivity|]. f_equal; [|exact IH].
    unfold Agent.stripMessage. destruct m as [c f [text|items]]; reflexivity.
  - induction 1 as [|m rest [text Hm] _ IH]; simpl; [reflexivity|]. f_equal; [|exact IH].
    unfold Agent.stripMessage. rewrite Hm. reflexivity.
Qed.

End InvocationLayerMore.

Lemma invoke_returns_truthy_witness :
  truthy (JObj [("done", JBool true)]) = true.
Proof.
  apply (invoke_returns_truthy Samples.providers (fun s => s)
           (fun _ => Throw JUndefined) (fun ms _ => ms)
           (Samples.agentOf (Samples.parsedModel (JObj [("done", JBool true)]))
                            "openai" "ChatOpenAI" "gpt-4o")
           [] (JObj [("done", JBool true)]) [EvStructuredInvoke []]).
  reflexivity.
Defined.

Lemma manual_path_returns_validated_witness :
  exists reply text data,
    Agent.llm_invoke (Samples.unparsedModel "<think>hm</think>{}") [] = Normal reply
    /\ content reply = ContentString text
    /\ Normal (JObj [("done", JStr " TRUE ")]) = Normal data
    /\ parse (object [("done", Planner.booleanStringSchema)]) data
       = Parsed (JObj [("done", JBool true)])
    /\ [EvInvoke []; EvManualParse "<think>hm</think>{}"]
       = [EvInvoke []; EvManualParse text].
Proof.
  apply (manual_path_returns_validated Samples.providers (fun s => s)
           (fun _ => Normal (JObj [("done", JStr " TRUE ")])) (fun ms _ => ms)
           (Samples.agentOf (Samples.unparsedModel "<think>hm</think>{}")
                            "deepseek" "ChatDeepSeek" "deepseek-reasoner")
           [] (JObj [("done", JBool true)])
           [EvInvoke []; EvManualParse "<think>hm</think>{}"]).
  - reflexivity.
  - reflexivity.
Defined.

Lemma structured_failure_keeps_message_witness :
  exists wrapped,
    run (Agent.invoke Samples.providers (fun s => s) (fun _ => Throw JUndefined)
           (fun ms _ => ms)
           (Samples.agentOf
              (Samples.failingModel (JError (newError "Request failed with status 403")))
              "openai" "ChatOpenAI" "gpt-4o")
           [])
    = (Throw (JError wrapped), [EvStructuredInvoke []])
    /\ isForbiddenError (JError wrapped) = true.
Proof.
  destruct (structured_failure_keeps_message Samples.providers (fun s => s)
              (fun _ => Throw JUndefined) (fun ms _ => ms)
              (Samples.agentOf
                 (Samples.failingModel
                    (JError (newError "Request failed with status 403")))
                 "openai" "ChatOpenAI" "gpt-4o")
              [] (JError (newError "Request failed with status 403"))
              eq_refl eq_refl eq_refl) as (wrapped & Hrun & _ & _ & _ & H403).
  exists wrapped. split; [exact Hrun | apply H403; reflexivity].
Defined.

(** ** More on the action registry *)

Lemma getProp_setProp_eq {V : Type} (k : string) (v : V) fields :
  getProp k (setProp k v fields) = Some v.
Proof.
  unfold setProp. destruct (getProp k fields) as [x|] eqn:Hget.
  - induction fields as [|[k' v'] rest IH]; cbn [getProp replaceProp] in *;
      [discriminate Hget|].
    destruct (String.eqb k' k) eqn:E; cbn [getProp].
    + rewrite String.eqb_refl. reflexivity.
    + rewrite E. exact (IH Hget).
  - induction fields as [|[k' v'] rest IH]; cbn [getProp insertProp] in *.
    + rewrite String.eqb_refl. reflexivity.
    + destruct (String.eqb k' k) eqn:E; [discriminate Hget|].
      destruct (enumeratedBefore k k'); cbn [getProp].
      * rewrite String.eqb_refl. reflexivity.
      * rewrite E. exact (IH Hget).
Qed.

Lemma getProp_setProp_ne {V : Type} (k k0 : string) (v : V) fields :
  k0 <> k -> getProp k0 (setProp k v fields) = getProp k0 fields.
Proof.
  intros Hne. unfold setProp. destruct (getProp k fields) as [x|].
  - induction fields as [|[k' v'] rest IH]; simpl; [reflexivity|].
    destruct (String.eqb_spec k' k) as [->|Hk]; simpl.
    + destruct (String.eqb_spec k k0); [congruence|reflexivity].
    + destruct (String.eqb k' k0); [reflexivity|exact IH].
  - induction fields as [|[k' v'] rest IH]; simpl.
    + destruct (String.eqb_spec k k0); [congruence|reflexivity].
    + destruct (enumeratedBefore k k'); simpl.
      * destruct (String.eqb_spec k k0); [congruence|reflexivity].
      * destruct (String.eqb k' k0); [reflexivity|exact IH].
Qed.

(** X9: on an action with an index argument and an input that is an
    object (a plain object, an array or an [Error]), [setIndexArg]
    succeeds and stores the index on the input, and [getIndexArg] then
    reads the new index back. Of a plain object every other property is
    as before and no key is lost or added but [index]; an array keeps its
    items and an [Error] its name, message and status. *)
Theorem index_arg_round_trip (a : Builder.Action) (input : Builder.Input)
        (newIndex : Z) :
  Builder.hasIndex a = true ->
  Builder.isObject input = true ->
  (Builder.setIndexArg a input newIndex).1 = true
  /\ Builder.getIndexArg a (Builder.setIndexArg a input newIndex).2
     = Some (JNum newIndex)
  /\ match input with
     | Builder.Bare (JObj fields) =>
         exists fields',
           (Builder.setIndexArg a input newIndex).2 = Builder.Bare (JObj fields')
           /\ (forall k, k <> "index" -> getProp k fields' = getProp k fields)
           /\ keys fields' ≡ₚ (if decide ("index" ∈ keys fields) then keys fields
                               else "index" :: keys fields)
     | Builder.Bare (JArr items) | Builder.IndexedArray items _ =>
         (Builder.setIndexArg a input newIndex).2
         = Builder.IndexedArray items (JNum newIndex)
     | Builder.Bare (JError e) | Builder.IndexedError e _ =>
         (Builder.setIndexArg a input newIndex).2
         = Builder.IndexedError e (JNum newIndex)
     | Builder.Bare _ => False
     end.
Proof.
  intros Hidx Hobj. unfold Builder.setIndexArg, Builder.getIndexArg.
  rewrite Hidx, Hobj. cbn [negb].
  destruct input as [[| |b|n|s|items|fields|e]|items i|e i];
    try discriminate Hobj; cbn [fst snd Builder.isObject negb propertiesOf];
    (split; [reflexivity|]); (split; [try reflexivity|]); try reflexivity.
  - apply getProp_setProp_eq.
  - eexists. split; [reflexivity|]. split; [|apply keys_setProp].
    intros k Hk. apply getProp_setProp_ne, Hk.
Qed.

Lemma index_arg_round_trip_witness :
  Builder.getIndexArg Samples.clickElement
    (Builder.setIndexArg Samples.clickElement
       (Builder.Bare (JObj [("intent", JStr "open menu"); ("index", JNum 4)])) 9).2
  = Some (JNum 9)
  /\ Builder.getIndexArg Samples.clickElement
       (Builder.setIndexArg Samples.clickElement (Builder.Bare (JArr [JNum 4])) 9).2
     = Some (JNum 9).
Proof.
  destruct (index_arg_round_trip Samples.clickElement
              (Builder.Bare (JObj [("intent", JStr "open menu"); ("index", JNum 4)]))
              9 eq_refl eq_refl) as (_ & H & _).
  destruct (index_arg_round_trip Samples.clickElement
              (Builder.Bare (JArr [JNum 4])) 9 eq_refl eq_refl) as (_ & H' & _).
  split; [exact H | exact H'].
Defined.

(** Without an index argument, and on an input that is no object, both
    accessors decline and the input stays untouched. *)
Lemma index_arg_declined (a : Builder.Action) (input : Builder.Input) (newIndex : Z) :
  Builder.hasIndex a = false \/ Builder.isObject input = false ->
  Builder.getIndexArg a input = None
  /\ Builder.setIndexArg a input newIndex = (false, input).
Proof.
  unfold Builder.getIndexArg, Builder.setIndexArg.
  intros [H|H]; rewrite H; [split; reflexivity|].
  destruct (Builder.hasIndex a); split; reflexivity.
Qed.

Lemma setProp_fresh {V : Type} (k : string) (v : V) fields :
  arrayIndex k = None -> k ∉ keys fields -> setProp k v fields = fields ++ [(k, v)].
Proof.
  intros Hk Hnin. unfold setProp.
  apply getProp_None in Hnin. rewrite Hnin. clear Hnin.
  induction fields as [|[k' v'] rest IH]; simpl; [reflexivity|].
  unfold enumeratedBefore at 1. rewrite Hk, IH. reflexivity.
Qed.

Lemma getProp_app_fresh {V : Type} (k : string) (l1 l2 : list (string * V)) :
  k ∉ keys l1 -> getProp k (l1 ++ l2) = getProp k l2.
Proof.
  unfold keys. induction l1 as [|[k' v'] rest IH]; simpl; intros Hk; [reflexivity|].
  apply not_elem_of_cons in Hk as [Hne Hk].
  destruct (String.eqb_spec k' k) as [->|_]; [contradiction|]. exact (IH Hk).
Qed.

(** The field an action gets in the decision schema. *)
Lemma decision_shape_distinct (actions : list Builder.Action) shape0 :
  Forall (fun a => arrayIndex (Builder.name a) = None) actions ->
  NoDup (keys shape0 ++ map Builder.name actions) ->
  fold_left
    (fun shape action =>
       setProp (Builder.name action)
         (describe (Builder.as_description (Builder.schema action))
            (optional (nullable (Builder.as_schema (Builder.schema action)))))
         shape)
    actions shape0
  = shape0
    ++ map (fun action =>
              (Builder.name action,
               describe (Builder.as_description (Builder.schema action))
                 (optional (nullable (Builder.as_schema (Builder.schema action))))))
           actions.
Proof.
  intros Hnames. revert shape0.
  induction Hnames as [|a rest Ha _ IH]; intros shape0 Hnd; simpl.
  - rewrite app_nil_r. reflexivity.
  - assert (Hfresh : Builder.name a ∉ keys shape0).
    { apply NoDup_app in Hnd as (_ & Hdis & _). intros Hin.
      apply (Hdis _ Hin). apply list_elem_of_here. }
    rewrite (setProp_fresh _ _ _ Ha Hfresh), IH.
    + rewrite <- app_assoc. reflexivity.
    + unfold keys. rewrite map_app. simpl. rewrite <- app_assoc. exact Hnd.
Qed.

(** X11: when the actions have pairwise distinct names, none of which is
    an array index (the numeral of an integer below 2^32 - 1, which
    JavaScript enumerates ahead of the other keys), the fields of the
    decision schema are the action names in the order of the list, and
    the field of every action is that action's own schema made nullable
    and optional, under the action's description. *)
Theorem decision_schema_keeps_order (actions : list Builder.Action) :
  NoDup (map Builder.name actions) ->
  Forall (fun a => arrayIndex (Builder.name a) = None) actions ->
  exists shape,
    Builder.buildDynamicActionSchema actions = object shape
    /\ keys shape = map Builder.name actions
    /\ forall a, a ∈ actions ->
         getProp (Builder.name a) shape
         = Some (describe (Builder.as_description (Builder.schema a))
                   (optional (nullable (Builder.as_schema (Builder.schema a))))).
Proof.
  intros Hnd Hnames. unfold Builder.buildDynamicActionSchema, object.
  rewrite buildDynamicActionSchema_shape, decision_shape_distinct
    by (exact Hnames || exact Hnd).
  eexists. split; [reflexivity|]. simpl. split.
  - unfold keys. rewrite map_map. reflexivity.
  - intros a Ha. clear Hnames. induction actions as [|b rest IH]; [inversion Ha|].
    apply NoDup_cons in Hnd as [Hb Hrest]. simpl.
    apply elem_of_cons in Ha as [->|Ha].
    + rewrite String.eqb_refl. reflexivity.
    + destruct (String.eqb_spec (Builder.name b) (Builder.name a)) as [Heq|_].
      * exfalso. apply Hb. rewrite Heq. apply (list_elem_of_fmap_2 Builder.name), Ha.
      * apply IH; assumption.
Qed.

Lemma decision_schema_keeps_order_witness :
  exists shape,
    Builder.buildDynamicActionSchema
      [Samples.goToUrl; Samples.scrollToTop; Samples.clickElement] = object shape
    /\ keys shape = ["go_to_url"; "scroll_to_top"; "click_element"].
Proof.
  destruct (decision_schema_keeps_order
              [Samples.goToUrl; Samples.scrollToTop; Samples.clickElement])
    as (shape & Hs & Hk & _).
  - repeat constructor; cbv; intros H; inversion H; subst;
      repeat match goal with
             | H : _ ∈ _ |- _ => inversion H; clear H; subst
             end.
  - repeat constructor.
  - exists shape. split; [exact Hs | exact Hk].
Defined.

(** Names that are array indices come first in the decision schema, in
    ascending order, wherever their actions stand in the list. *)
Example decision_schema_index_names :
  keys (match defOf (Builder.buildDynamicActionSchema
                       (map Samples.named ["b"; "1"; "a"; "0"; "01"])) with
        | ZodObject shape => shape
        | _ => []
        end)
  = ["0"; "1"; "b"; "a"; "01"].
Proof. vm_compute. reflexivity. Qed.

(** An object schema of optional fields, none named like a property that
    every object inherits, takes the empty object. *)
Lemma optional_fields_accept_empty_object (shape : list (string * ZodType))
      (path : list PathSeg) :
  Forall (fun kv => inherited kv.1 = None
                    /\ exists inner d, kv.2 = Zod (ZodOptional inner) d) shape ->
  parseDef (ZodObject shape) path (DVal (JObj [])) = PValid (JObj []).
Proof.
  induction 1 as [|[k t] rest (Hk & inner & d & Ht) _ IH]; [reflexivity|].
  simpl in Hk, Ht. subst t.
  cbn [parseDef parsedTypeOf parsedType] in *.
  rewrite String.eqb_refl in *.
  assert (Hread : readProp k (DVal (JObj [])) = None) by exact Hk.
  destruct (readProp k (DVal (JObj []))) as [x|]; [discriminate Hread|].
  cbn [default parseType parseDef].
  rewrite bool_decide_eq_false_2 by (intros [x Hx]; discriminate Hx).
  match type of IH with
  | match ?g with _ => _ end = _ => destruct g as [out|issues|e]
  end; try discriminate IH.
  cbn [mergeMember]. destruct (String.eqb k "__proto__"); exact IH.
Qed.

Lemma decision_shape_Forall (P : string * ZodType -> Prop)
      (actions : list Builder.Action) shape0 :
  Forall (fun a : Builder.Action =>
            P (Builder.name a,
               describe (Builder.as_description (Builder.schema a))
                 (optional (nullable (Builder.as_schema (Builder.schema a))))))
         actions ->
  Forall P shape0 ->
  Forall P
    (fold_left
       (fun shape action =>
          setProp (Builder.name action)
            (describe (Builder.as_description (Builder.schema action))
               (optional (nullable (Builder.as_schema (Builder.schema action)))))
            shape)
       actions shape0).
Proof.
  intros HP. revert shape0.
  induction HP as [|a rest Ha _ IH]; intros shape0 H0; simpl.
  - exact H0.
  - apply IH, Forall_setProp; [exact Ha | exact H0].
Qed.

(** X10: when no action is named like a property that every object
    inherits from [Object.prototype] ([constructor], [toString],
    [__proto__], ...), the decision schema accepts the empty object and
    returns it: a payload that chooses no action passes validation. *)
Theorem decision_schema_accepts_no_action (actions : list Builder.Action) :
  Forall (fun a => inherited (Builder.name a) = None) actions ->
  safeParse (Builder.buildDynamicActionSchema actions) (JObj []) = PValid (JObj []).
Proof.
  intros Hnames.
  unfold Builder.buildDynamicActionSchema, object, safeParse.
  rewrite buildDynamicActionSchema_shape.
  cbn [parseType]. apply optional_fields_accept_empty_object.
  apply decision_shape_Forall; [|constructor].
  eapply Forall_impl; [exact Hnames|].
  intros a Ha. split; [exact Ha|]. simpl. eauto.
Qed.

Lemma decision_schema_accepts_no_action_witness :
  safeParse (Builder.buildDynamicActionSchema
               [Samples.goToUrl; Samples.scrollToTop; Samples.clickElement])
            (JObj [])
  = PValid (JObj []).
Proof.
  apply (decision_schema_accepts_no_action
           [Samples.goToUrl; Samples.scrollToTop; Samples.clickElement]).
  repeat constructor.
Defined.

(** With an action named [constructor] the empty object finds the
    function it inherits under that name, and the field rejects it. *)
Example decision_schema_inherited_name :
  safeParse (Builder.buildDynamicActionSchema [Samples.named "constructor"]) (JObj [])
  = PInvalid [InvalidType "object" "function" [PKey "constructor"]
                "Expected object, received function"].
Proof. reflexivity. Qed.

Section ActionCallMore.

Context (zodErrorMessage : list ZodIssue -> string).

(** X12: [call] runs the handler at most once, and only on the empty
    object (for an empty object schema) or on the data the schema made of
    the input; when the handler is not run, [call] ends by throwing. *)
Theorem call_runs_handler_on_validated_data (a : Builder.Action) (input : JsVal) :
  (exists data,
      run (Builder.call zodErrorMessage a input)
      = (Builder.handler a data, [EvHandler (Builder.name a) data])
      /\ (if Builder.isEmptySchema (Builder.as_schema (Builder.schema a))
          then data = JObj []
          else safeParse (Builder.as_schema (Builder.schema a)) input = PValid data))
  \/ (exists e,
         run (Builder.call zodErrorMessage a input) = (Throw e, [])
         /\ Builder.isEmptySchema (Builder.as_schema (Builder.schema a)) = false
         /\ forall data,
             safeParse (Builder.as_schema (Builder.schema a)) input <> PValid data).
Proof.
  unfold Builder.call, run.
  destruct (Builder.isEmptySchema (Builder.as_schema (Builder.schema a))) eqn:He.
  - left. exists (JObj []). split; reflexivity.
  - destruct (safeParse (Builder.as_schema (Builder.schema a)) input)
      as [data|issues|e] eqn:Hp.
    + left. exists data. split; reflexivity.
    + right. eexists. split; [reflexivity|]. split; [reflexivity|]. discriminate.
    + right. eexists. split; [reflexivity|]. split; [reflexivity|]. discriminate.
Qed.

End ActionCallMore.

(** What the handler of [go_to_url] receives: the validated object, with
    the properties the schema does not know left out. *)
Example call_strips_unknown_keys :
  run (Builder.call errorMessage Samples.goToUrl
         (JObj [("url", JStr "https://example.com"); ("extra", JNum 1)]))
  = (Normal Samples.okResult,
     [EvHandler "go_to_url" (JObj [("url", JStr "https://example.com")])]).
Proof. reflexivity. Qed.

(** ** More on the memory store *)

Section SortHead.

Context {A : Type} (key : A -> Z).

Local Abbreviation newestFirst := (fun a b : A => (key b - key a)%Z).

(** An entry strictly newer than all others comes out first. *)
Lemma sort_newest_first (x : A) (l : list A) :
  x ∈ l ->
  (forall y, y ∈ l -> y = x \/ (key y < key x)%Z) ->
  exists rest, Memory.sort newestFirst l = x :: rest.
Proof.
  induction l as [|a l IH]; intros Hin Hall; [inversion Hin|].
  simpl.
  destruct (Hall a (list_elem_of_here _ _)) as [->|Hlt].
  - destruct (Memory.sort newestFirst l) as [|y s] eqn:Hs; simpl; [eauto|].
    assert (Hy : y ∈ l).
    { rewrite <- (sort_perm key l), Hs. apply list_elem_of_here. }
    destruct (Hall y (list_elem_of_further _ _ _ Hy)) as [->|Hy'].
    + rewrite Z.sub_diag. simpl. eauto.
    + destruct (Z.leb_spec (key y - key x) 0); [eauto | lia].
  - apply elem_of_cons in Hin as [->|Hin]; [lia|].
    destruct IH as [rest Hrest]; [exact Hin | |].
    + intros y Hy. apply Hall, list_elem_of_further, Hy.
    + rewrite Hrest. simpl.
      destruct (Z.leb_spec (key x - key a) 0); [lia | eauto].
Qed.

(** The limit step from any list: the result fits a non-negative limit. *)
Lemma limit_restored (limit : Z) (l : list A) :
  (0 <= limit)%Z ->
  (Z.of_nat (length (if (Z.of_nat (length l) >? limit)%Z
                     then Memory.slice0 limit (Memory.sort newestFirst l)
                     else l)) <= limit)%Z.
Proof. intros H. apply (enforce_limit key limit l H). Qed.

(** With a limit of at least one, the limit step keeps a strictly newest
    entry, in front when it had to cut. *)
Lemma limit_keeps_newest (limit : Z) (x : A) (l : list A) :
  (1 <= limit)%Z ->
  x ∈ l ->
  (forall y, y ∈ l -> y = x \/ (key y < key x)%Z) ->
  (Z.of_nat (length l) >? limit)%Z = true ->
  exists rest, Memory.slice0 limit (Memory.sort newestFirst l) = x :: rest.
Proof.
  intros Hlimit Hin Hall Hgt.
  destruct (sort_newest_first x l Hin Hall) as [rest Hs].
  unfold Memory.slice0. rewrite Hs.
  destruct (Z.ltb_spec limit 0); [lia|].
  destruct (Z.to_nat (Z.min limit (Z.of_nat (length (x :: rest))))) as [|n] eqn:Hn.
  - simpl in Hn. lia.
  - simpl. eauto.
Qed.

End SortHead.

(** X13: with room for at least one preference and a clock ahead of every
    stored entry, a preference just set is the one [getPreference] returns
    for its key, whether the key was new, already stored, or the list had
    to be cut to its limit. *)
Theorem setPreference_then_getPreference
        (now : Z) (preference : Memory.PreferenceInput) (memory : Memory.AgentMemory) :
  (1 <= Memory.maxPreferences (Memory.settingsOf memory))%Z ->
  (forall p, p ∈ Memory.preferences memory -> (Memory.lastUpdated p < now)%Z) ->
  Memory.getPreference (Memory.in_key preference)
                       (Memory.setPreference now preference memory)
  = Some (Memory.newPreferenceOf now preference).
Proof.
  intros Hmax Hclock.
  unfold Memory.getPreference, Memory.setPreference. cbv zeta.
  cbn [Memory.preferences].
  set (new := Memory.newPreferenceOf now preference).
  set (P := fun p : Memory.UserPreference => Memory.key p = Memory.in_key preference).
  set (cands := match list_find P (Memory.preferences memory) with
                | Some (existingIndex, _) => <[existingIndex:=new]> (Memory.preferences memory)
                | None => Memory.preferences memory ++ [new]
                end).
  assert (Hfind : exists i, list_find P cands = Some (i, new)).
  { unfold cands.
    destruct (list_find P (Memory.preferences memory)) as [[i q]|] eqn:Hf.
    - apply list_find_Some in Hf as (Hi & _ & Hfirst).
      exists i. apply list_find_Some. split; [|split].
      + apply list_lookup_insert_eq. eapply lookup_lt_Some, Hi.
      + reflexivity.
      + intros j y Hj Hlt. rewrite list_lookup_insert_ne in Hj by lia.
        eapply Hfirst; eassumption.
    - exists (length (Memory.preferences memory)).
      rewrite list_find_app_r by exact Hf. simpl.
      rewrite decide_True by reflexivity. reflexivity. }
  assert (Hin : new ∈ cands /\ forall y, y ∈ cands ->
                  y = new \/ (Memory.lastUpdated y < Memory.lastUpdated new)%Z).
  { destruct Hfind as [i Hi]. apply list_find_Some in Hi as (Hi & _ & _).
    split; [eapply list_elem_of_lookup_2, Hi|].
    intros y Hy. unfold cands in Hy.
    destruct (list_find P (Memory.preferences memory)) as [[k q]|].
    - apply list_elem_of_lookup_1 in Hy as [j Hj].
      destruct (decide (k = j)) as [->|Hne].
      + left. rewrite list_lookup_insert_eq in Hj
          by (rewrite <- (length_insert _ j new); eapply lookup_lt_Some, Hj).
        congruence.
      + rewrite list_lookup_insert_ne in Hj by exact Hne.
        right. apply Hclock. eapply list_elem_of_lookup_2, Hj.
    - apply elem_of_app in Hy as [Hy|Hy].
      + right. apply Hclock, Hy.
      + left. apply list_elem_of_singleton in Hy. exact Hy. }
  destruct (Z.of_nat (length cands) >? Memory.maxPreferences (Memory.settingsOf memory))%Z
    eqn:Hgt.
  - destruct Hin as [Hnew Hall].
    destruct (limit_keeps_newest Memory.lastUpdated _ new cands Hmax Hnew Hall Hgt)
      as [rest ->].
    simpl. rewrite decide_True by reflexivity. reflexivity.
  - destruct Hfind as [i ->]. reflexivity.
Qed.

Lemma setPreference_then_getPreference_witness :
  Memory.getPreference "voice"
    (Memory.setPreference 9 (Samples.preferenceInput "voice" "on") Samples.fullMemory)
  = Some (Memory.newPreferenceOf 9 (Samples.preferenceInput "voice" "on")).
Proof.
  apply (setPreference_then_getPreference 9 (Samples.preferenceInput "voice" "on")
           Samples.fullMemory).
  - simpl. lia.
  - intros p Hp. apply list_elem_of_singleton in Hp as ->. simpl. lia.
Defined.

(** When the clock does not run ahead, the new preference can be the one
    that is cut: equal time stamps keep the stored entry in front. *)
Example setPreference_can_drop_the_new_entry :
  Memory.getPreference "voice"
    (Memory.setPreference 5 (Samples.preferenceInput "voice" "on") Samples.fullMemory)
  = None.
Proof. reflexivity. Qed.

Lemma snd_list_find_cons {A : Type} (P : A -> Prop) `{!forall x, Decision (P x)}
      (a : A) (l : list A) :
  snd <$> list_find P (a :: l)
  = if decide (P a) then Some a else snd <$> list_find P l.
Proof.
  cbn [list_find]. destruct (decide (P a)); [reflexivity|].
  destruct (list_find P l) as [[i x]|]; reflexivity.
Qed.

Lemma find_after_filter_other (k k' : string) (l : list Memory.UserPreference) :
  k' <> k ->
  snd <$> list_find (fun p => Memory.key p = k')
                    (filter (fun p => Memory.key p <> k) l)
  = snd <$> list_find (fun p => Memory.key p = k') l.
Proof.
  intros Hne. induction l as [|a l IH]; [reflexivity|].
  rewrite filter_cons, (snd_list_find_cons _ a l).
  destruct (decide (Memory.key a <> k)) as [Hkeep|Hdrop].
  - rewrite snd_list_find_cons. rewrite IH. reflexivity.
  - rewrite decide_False; [exact IH|].
    intros Hk'. apply Hdrop. intros Hk. apply Hne. congruence.
Qed.

(** X14: after [removePreference] the key has no preference any more,
    while [getPreference] answers for every other key as before. *)
Theorem removePreference_then_getPreference (key_ : string) (memory : Memory.AgentMemory) :
  Memory.getPreference key_ (Memory.removePreference key_ memory) = None
  /\ forall other, other <> key_ ->
       Memory.getPreference other (Memory.removePreference key_ memory)
       = Memory.getPreference other memory.
Proof.
  unfold Memory.getPreference, Memory.removePreference. cbn [Memory.preferences]. split.
  - replace (list_find (fun p => Memory.key p = key_)
               (filter (fun p => Memory.key p <> key_) (Memory.preferences memory)))
      with (@None (nat * Memory.UserPreference)); [reflexivity|].
    symmetry. apply list_find_None, Forall_forall.
    intros p Hp. apply list_elem_of_filter in Hp as [Hp _]. exact Hp.
  - intros other Hne. apply find_after_filter_other, Hne.
Qed.

(** X15: [removePattern] takes away exactly the patterns of the given
    identifier: what [getPatterns] lists afterwards are the earlier
    patterns of other identifiers, in their order; the pattern count
    never grows, is unchanged for an identifier that is not stored, and
    the preference count stays. *)
Theorem removePattern_removes_exactly (id_ : string) (memory : Memory.AgentMemory) :
  (forall p, p ∈ Memory.getPatterns (Memory.removePattern id_ memory)
             <-> p ∈ Memory.getPatterns memory /\ Memory.id p <> id_)
  /\ Memory.getPatterns (Memory.removePattern id_ memory)
     `sublist_of` Memory.getPatterns memory
  /\ ((Memory.getMemoryStats (Memory.removePattern id_ memory)).1
      <= (Memory.getMemoryStats memory).1)%nat
  /\ (Forall (fun p => Memory.id p <> id_) (Memory.getPatterns memory) ->
      Memory.getPatterns (Memory.removePattern id_ memory) = Memory.getPatterns memory)
  /\ (Memory.getMemoryStats (Memory.removePattern id_ memory)).2
     = (Memory.getMemoryStats memory).2.
Proof.
  unfold Memory.getPatterns, Memory.getMemoryStats, Memory.removePattern.
  cbn [Memory.patterns Memory.preferences fst snd].
  split; [|split; [|split; [|split]]].
  - intros p. rewrite list_elem_of_filter. tauto.
  - apply sublist_filter.
  - apply length_filter.
  - induction 1 as [|p l Hp _ IH]; [reflexivity|].
    rewrite filter_cons_True by exact Hp. rewrite IH. reflexivity.
  - reflexivity.
Qed.

(** Below 2^53 in absolute value [n++] adds one; from 2^53 on the sum
    is rounded to a number with 53 significant bits. *)
Lemma increment_safe (n : Z) :
  (Z.abs n < 2 ^ 53)%Z -> JsNumber.increment n = (n + 1)%Z.
Proof.
  unfold JsNumber.increment, JsNumber.toDouble.
  change (2 ^ 53)%Z with 9007199254740992%Z. intros Hn.
  destruct (Z.leb_spec (Z.abs n) 9007199254740992); [|lia].
  destruct (Z.leb_spec (Z.abs (n + 1)) 9007199254740992); [reflexivity|lia].
Qed.

Example increment_saturates :
  JsNumber.increment (2 ^ 53) = (2 ^ 53)%Z
  /\ JsNumber.increment (2 ^ 53 + 2) = (2 ^ 53 + 4)%Z
  /\ JsNumber.increment (2 ^ 60) = (2 ^ 60)%Z.
Proof. repeat split; vm_compute; reflexivity. Qed.

(** The sum of the success counts of a list of patterns. *)
Lemma successes_after_markUsed (now : Z) (i : nat) (p : Memory.LearnedPattern)
      (l : list Memory.LearnedPattern) :
  l !! i = Some p ->
  (Z.abs (Memory.successCount p) < 2 ^ 53)%Z ->
  foldr (fun q acc => (Memory.successCount q + acc)%Z) 0%Z
        (alter (Memory.markUsed now) i l)
  = (foldr (fun q acc => (Memory.successCount q + acc)%Z) 0%Z l + 1)%Z
  /\ Memory.id <$> alter (Memory.markUsed now) i l = Memory.id <$> l
  /\ alter (Memory.markUsed now) i l !! i = Some (Memory.markUsed now p).
Proof.
  intros Hi Hsafe. revert i Hi.
  induction l as [|a l IH]; intros i Hi; [discriminate Hi|].
  destruct i as [|i].
  - simpl in *. injection Hi as ->. rewrite (increment_safe _ Hsafe).
    split; [lia|]. split; reflexivity.
  - destruct (IH i Hi) as (Hsum & Hids & Hat). simpl in *.
    change (list_alter (Memory.markUsed now) i l)
      with (alter (Memory.markUsed now) i l).
    rewrite Hsum. split; [lia|]. split; [|exact Hat].
    f_equal. exact Hids.
Qed.



(** X17: [updatePatternSuccess] with an identifier that is not stored
    leaves the store as it is; with a stored one it keeps identifiers and
    order, and, while the stored counts are below 2^53 in absolute value,
    counts exactly one more success in total. *)
Theorem updatePatternSuccess_counts_once (now : Z) (id_ : string)
        (memory : Memory.AgentMemory) :
  (Forall (fun p => Memory.id p <> id_) (Memory.patterns memory) ->
   Memory.updatePatternSuccess now id_ memory = memory)
  /\ ((exists p, p ∈ Memory.patterns memory /\ Memory.id p = id_) ->
      Forall (fun p => (Z.abs (Memory.successCount p) < 2 ^ 53)%Z)
             (Memory.patterns memory) ->
      Memory.id <$> Memory.patterns (Memory.updatePatternSuccess now id_ memory)
      = Memory.id <$> Memory.patterns memory
      /\ foldr (fun q acc => (Memory.successCount q + acc)%Z) 0%Z
               (Memory.patterns (Memory.updatePatternSuccess now id_ memory))
         = (foldr (fun q acc => (Memory.successCount q + acc)%Z) 0%Z
                  (Memory.patterns memory) + 1)%Z).
Proof.
  unfold Memory.updatePatternSuccess. split.
  - intros Hnone. apply (list_find_None (fun p => Memory.id p = id_)) in Hnone.
    rewrite Hnone. reflexivity.
  - intros (p & Hp & Hid) Hsafe.
    destruct (list_find_elem_of (fun q => Memory.id q = id_) _ p Hp Hid) as [[i q] Hf].
    rewrite Hf. cbn [Memory.patterns].
    apply list_find_Some in Hf as (Hi & _ & _).
    assert (Hq : (Z.abs (Memory.successCount q) < 2 ^ 53)%Z).
    { rewrite Forall_forall in Hsafe. apply Hsafe.
      eapply list_elem_of_lookup_2, Hi. }
    destruct (successes_after_markUsed now i q _ Hi Hq) as (Hsum & Hids & _).
    split; assumption.
Qed.

Lemma updatePatternSuccess_counts_once_witness :
  Memory.id <$> Memory.patterns (Memory.updatePatternSuccess 50 "p2" Samples.fullMemory)
  = ["p1"; "p2"]
  /\ foldr (fun q acc => (Memory.successCount q + acc)%Z) 0%Z
           (Memory.patterns (Memory.updatePatternSuccess 50 "p2" Samples.fullMemory))
     = 3%Z.
Proof.
  destruct (updatePatternSuccess_counts_once 50 "p2" Samples.fullMemory) as [_ H].
  apply H.
  - exists (Samples.patternAt "p2" "b.example" 30). split; [|reflexivity].
    apply list_elem_of_further, list_elem_of_here.
  - repeat constructor.
Defined.

Lemma filter_always {A : Type} (P : A -> Prop) `{!forall x, Decision (P x)} (l : list A) :
  (forall x, P x) -> filter P l = l.
Proof.
  intros HP. induction l as [|a l IH]; [reflexivity|].
  rewrite filter_cons_True by apply HP. rewrite IH. reflexivity.
Qed.

(** X18: [getPatternsForDomain] returns, in their order, stored patterns
    whose domain contains the query when both are lower-cased; the letter
    case of the query does not matter, and the empty query returns every
    pattern. *)
Theorem getPatternsForDomain_matches (domain_ : string) (memory : Memory.AgentMemory) :
  Memory.getPatternsForDomain domain_ memory `sublist_of` Memory.getPatterns memory
  /\ (forall p, p ∈ Memory.getPatternsForDomain domain_ memory
                <-> p ∈ Memory.getPatterns memory
                    /\ includes (toLowerCase (Memory.domain p)) (toLowerCase domain_) = true)
  /\ Memory.getPatternsForDomain (toLowerCase domain_) memory
     = Memory.getPatternsForDomain domain_ memory
  /\ Memory.getPatternsForDomain EmptyString memory = Memory.getPatterns memory.
Proof.
  unfold Memory.getPatternsForDomain. cbv zeta. split; [|split; [|split]].
  - apply sublist_filter.
  - intros p. rewrite list_elem_of_filter. tauto.
  - rewrite toLowerCase_idempotent. reflexivity.
  - apply filter_always. intros p. apply includes_empty.
Qed.

(** X19: [updateSettings] changes the settings only, each given field
    replacing the stored one, even when a new limit is below the number of
    stored entries; the next [setPreference], and the next [addPattern] of
    a pattern that is not stored yet, bring their list within a limit
    that is not negative. *)
Theorem updateSettings_then_limits
        (settings_ : Memory.PartialSettings) (memory : Memory.AgentMemory)
        (uuid : string) (now1 now2 now : Z)
        (pattern : Memory.PatternInput) (preference : Memory.PreferenceInput) :
  let updated := Memory.updateSettings settings_ memory in
  Memory.patterns updated = Memory.patterns memory
  /\ Memory.preferences updated = Memory.preferences memory
  /\ Memory.maxPatterns (Memory.getSettings updated)
     = default (Memory.maxPatterns (Memory.getSettings memory))
               (Memory.set_maxPatterns settings_)
  /\ Memory.maxPreferences (Memory.getSettings updated)
     = default (Memory.maxPreferences (Memory.getSettings memory))
               (Memory.set_maxPreferences settings_)
  /\ Memory.isEnabled updated
     = default (Memory.isEnabled memory) (Memory.set_enabled settings_)
  /\ ((0 <= Memory.maxPreferences (Memory.getSettings updated))%Z ->
      (Z.of_nat (length (Memory.preferences
                           (Memory.setPreference now preference updated)))
       <= Memory.maxPreferences (Memory.getSettings updated))%Z)
  /\ ((0 <= Memory.maxPatterns (Memory.getSettings updated))%Z ->
      Forall (fun p => ~ Memory.samePattern pattern p) (Memory.patterns memory) ->
      (Z.of_nat (length (Memory.patterns
                           (Memory.addPattern uuid now1 now2 pattern updated)))
       <= Memory.maxPatterns (Memory.getSettings updated))%Z).
Proof.
  cbv zeta.
  split; [reflexivity|]. split; [reflexivity|]. split; [reflexivity|].
  split; [reflexivity|]. split; [reflexivity|]. split.
  - intros Hmax. unfold Memory.setPreference. cbv zeta. cbn [Memory.preferences].
    apply (limit_restored Memory.lastUpdated). exact Hmax.
  - intros Hmax Hnone. unfold Memory.addPattern. cbv zeta.
    match goal with
    | |- context [match ?f with Some _ => _ | None => _ end] =>
        replace f with (@None (nat * Memory.LearnedPattern))
    end.
    + cbn [Memory.patterns]. apply (limit_restored Memory.lastUsed). exact Hmax.
    + symmetry. apply list_find_None. exact Hnone.
Qed.

(** A limit lowered below the stored number takes effect with the next
    new entry. *)
Example lowered_limit_takes_effect_later :
  let lowered :=
    Memory.updateSettings {| Memory.set_enabled := None; Memory.set_maxPatterns := Some 1%Z;
                             Memory.set_maxPreferences := None |}
                          Samples.fullMemory in
  Memory.getMemoryStats lowered = (2, 1)%nat
  /\ Memory.id <$> Memory.patterns
                     (Memory.addPattern "p3" 40 41 (Samples.patternInput "c.example")
                                        lowered)
     = ["p3"].
Proof. split; reflexivity. Qed.

(** ** The user profile store *)

(** X20: adding, updating and removing credentials never touches the
    user identifier or the form data [getFormData] returns. *)
Theorem credential_operations_keep_form_data
        (uuid id_ : string) (now : Z) (credential : UserStore.CredentialInput)
        (updates : UserStore.PartialCredential) (stored : UserStore.UserProfile) :
  Forall (fun after =>
            UserStore.getFormData after = UserStore.getFormData stored
            /\ UserStore.userId after = UserStore.userId stored)
         [ UserStore.addCredential uuid now credential stored;
           UserStore.updateCredential id_ updates stored;
           UserStore.removeCredential id_ stored ].
Proof. repeat constructor. Qed.

(** X21: [addCredential] puts the new credential last; removing it again
    by its identifier gives back the earlier credentials, provided no
    earlier credential carries that identifier. *)
Theorem addCredential_then_removeCredential
        (uuid : string) (now : Z) (credential : UserStore.CredentialInput)
        (stored : UserStore.UserProfile) :
  Forall (fun cred => UserStore.id cred <> uuid) (UserStore.getCredentials stored) ->
  UserStore.getCredentials (UserStore.addCredential uuid now credential stored)
  = UserStore.getCredentials stored
    ++ [ {| UserStore.id := uuid; UserStore.site := UserStore.in_site credential;
            UserStore.username := UserStore.in_username credential;
            UserStore.password := UserStore.in_password credential;
            UserStore.createdAt := now;
            UserStore.lastUsed := UserStore.in_lastUsed credential |} ]
  /\ UserStore.getCredentials
       (UserStore.removeCredential uuid
          (UserStore.addCredential uuid now credential stored))
     = UserStore.getCredentials stored.
Proof.
  intros Hfresh. unfold UserStore.getCredentials, UserStore.removeCredential,
    UserStore.addCredential, UserStore.updateProfile, UserStore.getProfile in *.
  cbn [UserStore.spreadProfile UserStore.credentials UserStore.withCredentials
       UserStore.p_credentials UserStore.patched default] in *.
  split; [reflexivity|].
  generalize dependent (default [] (UserStore.credentials stored)). intros creds Hfresh.
  unfold id.
  rewrite filter_app, filter_cons_False, filter_nil, app_nil_r
    by (cbn [UserStore.id]; intros H; apply H; reflexivity).
  induction Hfresh as [|c l Hc _ IH]; [reflexivity|].
  rewrite filter_cons_True by exact Hc. rewrite IH. reflexivity.
Qed.

Lemma addCredential_then_removeCredential_witness :
  UserStore.getCredentials
    (UserStore.removeCredential "c3"
       (UserStore.addCredential "c3" 7
          {| UserStore.in_site := "bank.example"; UserStore.in_username := "ada";
             UserStore.in_password := "pw"; UserStore.in_lastUsed := None |}
          Samples.profile))
  = UserStore.getCredentials Samples.profile.
Proof.
  destruct (addCredential_then_removeCredential "c3" 7
              {| UserStore.in_site := "bank.example"; UserStore.in_username := "ada";
                 UserStore.in_password := "pw"; UserStore.in_lastUsed := None |}
              Samples.profile) as [_ H].
  - repeat constructor; discriminate.
  - exact H.
Defined.

(** X22: [updateCredential] keeps the number of credentials; with an
    identifier that is not stored it changes none of them, and an update
    that does not name [id] leaves all identifiers where they were. *)
Theorem updateCredential_keeps_the_list
        (id_ : string) (updates : UserStore.PartialCredential)
        (stored : UserStore.UserProfile) :
  length (UserStore.getCredentials (UserStore.updateCredential id_ updates stored))
  = length (UserStore.getCredentials stored)
  /\ (Forall (fun cred => UserStore.id cred <> id_) (UserStore.getCredentials stored) ->
      UserStore.getCredentials (UserStore.updateCredential id_ updates stored)
      = UserStore.getCredentials stored)
  /\ (UserStore.u_id updates = UserStore.Keep ->
      UserStore.id <$> UserStore.getCredentials
                         (UserStore.updateCredential id_ updates stored)
      = UserStore.id <$> UserStore.getCredentials stored).
Proof.
  unfold UserStore.getCredentials, UserStore.updateCredential,
    UserStore.updateProfile, UserStore.getProfile.
  cbn [UserStore.spreadProfile UserStore.credentials UserStore.withCredentials
       UserStore.p_credentials UserStore.patched default].
  generalize (default [] (UserStore.credentials stored)). intros creds.
  split; [apply length_map|]. split.
  - induction 1 as [|c l Hc _ IH]; [reflexivity|]. simpl.
    destruct (String.eqb_spec (UserStore.id c) id_); [contradiction|].
    f_equal. exact IH.
  - intros Hkeep. induction creds as [|c l IH]; [reflexivity|]. simpl.
    f_equal; [|exact IH].
    destruct (String.eqb (UserStore.id c) id_); [|reflexivity].
    unfold UserStore.spreadCredential. cbn [UserStore.id]. rewrite Hkeep. reflexivity.
Qed.

(** X23: [getCredentialForSite] returns a stored credential whose site
    contains the query or is contained in it, letter case aside, and none
    only when no stored credential does; the case of the query does not
    matter; for the empty query it returns the first stored credential. *)
Theorem getCredentialForSite_matches (site_ : string) (stored : UserStore.UserProfile) :
  match UserStore.getCredentialForSite site_ stored with
  | Some cred =>
      cred ∈ UserStore.getCredentials stored
      /\ includes (toLowerCase (UserStore.site cred)) (toLowerCase site_)
         || includes (toLowerCase site_) (toLowerCase (UserStore.site cred)) = true
  | None =>
      Forall (fun cred =>
                includes (toLowerCase (UserStore.site cred)) (toLowerCase site_)
                || includes (toLowerCase site_) (toLowerCase (UserStore.site cred))
                = false)
             (UserStore.getCredentials stored)
  end
  /\ UserStore.getCredentialForSite (toLowerCase site_) stored
     = UserStore.getCredentialForSite site_ stored
  /\ UserStore.getCredentialForSite EmptyString stored
     = head (UserStore.getCredentials stored).
Proof.
  unfold UserStore.getCredentialForSite. cbv zeta. split; [|split].
  - destruct (list_find _ (UserStore.getCredentials stored)) as [[i cred]|] eqn:Hf;
      simpl.
    + apply list_find_Some in Hf as (Hi & Hm & _).
      split; [eapply list_elem_of_lookup_2, Hi | exact Hm].
    + apply list_find_None in Hf. eapply Forall_impl; [exact Hf|].
      intros cred Hn. unfold UserStore.siteMatches in Hn.
      destruct (_ || _); [contradiction Hn; reflexivity | reflexivity].
  - rewrite toLowerCase_idempotent. reflexivity.
  - destruct (UserStore.getCredentials stored) as [|c l]; [reflexivity|].
    cbn [list_find head]. rewrite decide_True; [reflexivity|].
    unfold UserStore.siteMatches. simpl. rewrite includes_empty. reflexivity.
Qed.

(** The stored credentials when the page address gives no host name. *)
Example getCredentialForSite_without_site :
  UserStore.id <$> UserStore.getCredentialForSite EmptyString Samples.profile = Some "c1"
  /\ UserStore.id <$> UserStore.getCredentialForSite "EXAMPLE.COM" Samples.profile
     = Some "c1"
  /\ UserStore.id <$> UserStore.getCredentialForSite "www.shop.example" Samples.profile
     = Some "c2".
Proof. repeat split; reflexivity. Qed.

(** X24: once [getUserId] has answered, it keeps giving the same
    identifier and leaves the store alone, as long as the generated
    identifier is neither empty nor ['unknown']; an identifier that is
    already set is returned as it is. *)
Theorem getUserId_is_stable (uuid uuid' : string) (stored : UserStore.UserProfile) :
  uuid <> EmptyString ->
  uuid <> "unknown" ->
  UserStore.getUserId uuid' (UserStore.getUserId uuid stored).2
  = UserStore.getUserId uuid stored
  /\ (UserStore.getUserId uuid stored).1 <> "unknown"
  /\ (UserStore.userId stored <> EmptyString -> UserStore.userId stored <> "unknown" ->
      UserStore.getUserId uuid stored = (UserStore.userId stored, stored)).
Proof.
  intros Hne Hnu. unfold UserStore.getUserId, UserStore.getProfile. cbv zeta.
  destruct (String.eqb_spec (UserStore.userId stored) EmptyString) as [He|He];
    destruct (String.eqb_spec (UserStore.userId stored) "unknown") as [Hu|Hu];
    cbn [orb snd fst UserStore.updateProfile UserStore.spreadProfile UserStore.userId
         UserStore.p_userId UserStore.patched];
    try (destruct (String.eqb_spec uuid EmptyString); [contradiction|];
         destruct (String.eqb_spec uuid "unknown"); [contradiction|];
         cbn [orb]; split; [reflexivity|]; split; [assumption|]; intros; contradiction).
  destruct (String.eqb_spec (UserStore.userId stored) EmptyString); [contradiction|].
  destruct (String.eqb_spec (UserStore.userId stored) "unknown"); [contradiction|].
  cbn [orb]. split; [reflexivity|]. split; [assumption|]. intros; reflexivity.
Qed.

Lemma getUserId_is_stable_witness :
  UserStore.getUserId "later"
    (UserStore.getUserId "3f2a" Samples.profile).2
  = UserStore.getUserId "3f2a" Samples.profile.
Proof.
  destruct (getUserId_is_stable "3f2a" "later" Samples.profile) as [H _].
  - discriminate.
  - discriminate.
  - exact H.
Defined.

(** ** The text-to-speech service *)

(** The voice [getDefaultVoice] picks is installed, and one is picked
    unless none is installed. *)
Lemma getDefaultVoice_installed (voices : list TextToSpeech.Voice) :
  (TextToSpeech.getDefaultVoice voices = None <-> voices = [])
  /\ (forall v, TextToSpeech.getDefaultVoice voices = Some v -> v ∈ voices).
Proof.
  unfold TextToSpeech.getDefaultVoice. cbv zeta.
  destruct (list_find (fun v => TextToSpeech.isEnglish v && TextToSpeech.default_ v = true)
                      voices) as [[i1 v1]|] eqn:H1; simpl.
  { apply list_find_Some in H1 as (Hi & _ & _).
    split; [split; [discriminate | intros ->; discriminate Hi]|].
    intros v [= <-]. eapply list_elem_of_lookup_2, Hi. }
  destruct (list_find (fun v => TextToSpeech.isEnglish v = true) voices)
    as [[i2 v2]|] eqn:H2; simpl.
  { apply list_find_Some in H2 as (Hi & _ & _).
    split; [split; [discriminate | intros ->; discriminate Hi]|].
    intros v [= <-]. eapply list_elem_of_lookup_2, Hi. }
  destruct (list_find (fun v => TextToSpeech.default_ v = true) voices)
    as [[i3 v3]|] eqn:H3; simpl.
  { apply list_find_Some in H3 as (Hi & _ & _).
    split; [split; [discriminate | intros ->; discriminate Hi]|].
    intros v [= <-]. eapply list_elem_of_lookup_2, Hi. }
  destruct voices as [|v0 rest]; simpl.
  - split; [tauto | discriminate].
  - split; [split; discriminate|]. intros v [= <-]. apply list_elem_of_here.
Qed.

(** X25: [getDefaultVoice] returns one of the installed voices, none only
    when no voice is installed, and an English one whenever an English
    voice is installed. *)
Theorem getDefaultVoice_prefers_english (voices : list TextToSpeech.Voice) :
  (TextToSpeech.getDefaultVoice voices = None <-> voices = [])
  /\ (forall v, TextToSpeech.getDefaultVoice voices = Some v -> v ∈ voices)
  /\ ((exists v, v ∈ voices /\ TextToSpeech.isEnglish v = true) ->
      exists v, TextToSpeech.getDefaultVoice voices = Some v
                /\ TextToSpeech.isEnglish v = true).
Proof.
  destruct (getDefaultVoice_installed voices) as [Hnone Hmem].
  split; [exact Hnone|]. split; [exact Hmem|].
  intros (v & Hv & He). unfold TextToSpeech.getDefaultVoice. cbv zeta.
  destruct (list_find (fun v => TextToSpeech.isEnglish v && TextToSpeech.default_ v = true)
                      voices) as [[i1 v1]|] eqn:H1; simpl.
  - apply list_find_Some in H1 as (_ & Hp & _).
    exists v1. split; [reflexivity|].
    apply andb_true_iff in Hp as [Hp _]. exact Hp.
  - destruct (list_find (fun v => TextToSpeech.isEnglish v = true) voices)
      as [[i2 v2]|] eqn:H2; simpl.
    + apply list_find_Some in H2 as (_ & Hp & _).
      exists v2. split; [reflexivity | exact Hp].
    + apply list_find_None in H2. rewrite Forall_forall in H2.
      destruct (H2 v Hv He).
Qed.

Lemma getDefaultVoice_prefers_english_witness :
  exists v, TextToSpeech.getDefaultVoice Samples.voices = Some v
            /\ TextToSpeech.isEnglish v = true.
Proof.
  destruct (getDefaultVoice_prefers_english Samples.voices) as (_ & _ & H).
  apply H. eexists. split; [apply list_elem_of_further, list_elem_of_here | reflexivity].
Defined.


(** The named voice is missing, so the English one is chosen. *)
Example speak_falls_back_to_english :
  TextToSpeech.speak true Samples.voices Samples.voiceSettings "Task completed."
    None
  = [ TextToSpeech.SynthCancel;
      TextToSpeech.SynthSpeak
        {| TextToSpeech.u_text := "Task completed.";
           TextToSpeech.u_voice :=
             Some {| TextToSpeech.voice_name := "Daniel"; TextToSpeech.lang := "en-GB";
                     TextToSpeech.default_ := false |};
           TextToSpeech.u_rate := QArith_base.Qmake 1 1;
           TextToSpeech.u_pitch := QArith_base.Qmake 1 1 |} ].
Proof. reflexivity. Qed.
